(** * request-logger.plugin.ts: a shallow embedding and its properties

    The plugin registers three Fastify hooks ([preHandler], [onSend],
    [onError]) that build one [RequestLogEntry] per request to the
    message endpoint and append it to a JSON-lines file.

    Conventions of the embedding.
    - A JavaScript string is the list of its UTF-16 code units, so that
      [length], [substring], [startsWith] and [split] count what the
      source counts.
    - A JavaScript value of type [any] is a [value]: [undefined], [null],
      booleans, numbers, strings, arrays and plain objects (an object is
      the list of its own properties in insertion order).
    - The pieces of the JavaScript runtime whose behaviour rests on
      binary64 arithmetic or on a large built-in ([JSON.parse]) are the
      methods of the classes [Numbers] and [Runtime]; every general
      theorem holds for every runtime. The module [Ref] gives a concrete
      runtime used to run the hooks on concrete inputs.
    - A property that is absent and a property that holds [undefined] are
      not told apart: the source never distinguishes them and
      [JSON.stringify] drops both. *)

From Stdlib Require Import NArith ZArith Lia Bool String Ascii List.
From Stdlib Require DecimalNat.
Import ListNotations.
Local Open Scope list_scope.

Set Implicit Arguments.

(* ================================================================= *)
(** ** Strings *)

Definition codeunit := N.
Definition jsstring := list codeunit.

(** A string literal of the source. *)
Definition str (s : string) : jsstring :=
  map N_of_ascii (list_ascii_of_string s).

(** The same, with every apostrophe read as a double quote; used to write
    JSON texts. *)
Definition json_text (s : string) : jsstring :=
  map (fun c => if N.eqb c 39 then 34%N else c) (str s).

Fixpoint streq (a b : jsstring) : bool :=
  match a, b with
  | [], [] => true
  | x :: a', y :: b' => N.eqb x y && streq a' b'
  | _, _ => false
  end.

(** [s.startsWith(p)] *)
Fixpoint startsWith (p s : jsstring) : bool :=
  match p, s with
  | [], _ => true
  | x :: p', y :: s' => N.eqb x y && startsWith p' s'
  | _ :: _, [] => false
  end.

(** [s.endsWith(p)] *)
Definition endsWith (p s : jsstring) : bool :=
  startsWith (rev p) (rev s).

(** [s.substring(0, n)] and [s.substring(n)] *)
Definition substring_to (n : nat) (s : jsstring) : jsstring := firstn n s.
Definition substring_from (n : nat) (s : jsstring) : jsstring := skipn n s.

Definition LF : codeunit := 10%N.

(** [s.split('\n')]: the pieces between line feeds; never empty. *)
Fixpoint split_lines (s : jsstring) : list jsstring :=
  match s with
  | [] => [[]]
  | c :: s' =>
      if N.eqb c LF then [] :: split_lines s'
      else match split_lines s' with
           | [] => [[c]]
           | l :: ls => (c :: l) :: ls
           end
  end.

(** [parts.join(sep)] on strings. *)
Fixpoint join (sep : jsstring) (parts : list jsstring) : jsstring :=
  match parts with
  | [] => []
  | [p] => p
  | p :: rest => p ++ sep ++ join sep rest
  end.

(** Decimal digits of a natural number, as the template literal
    [`${n}`] prints a non-negative integer. *)
Fixpoint uint_digits (d : Decimal.uint) : jsstring :=
  match d with
  | Decimal.Nil => []
  | Decimal.D0 d' => 48%N :: uint_digits d'
  | Decimal.D1 d' => 49%N :: uint_digits d'
  | Decimal.D2 d' => 50%N :: uint_digits d'
  | Decimal.D3 d' => 51%N :: uint_digits d'
  | Decimal.D4 d' => 52%N :: uint_digits d'
  | Decimal.D5 d' => 53%N :: uint_digits d'
  | Decimal.D6 d' => 54%N :: uint_digits d'
  | Decimal.D7 d' => 55%N :: uint_digits d'
  | Decimal.D8 d' => 56%N :: uint_digits d'
  | Decimal.D9 d' => 57%N :: uint_digits d'
  end.

Definition nat_toString (n : nat) : jsstring := uint_digits (Nat.to_uint n).

(** The number a run of decimal digits denotes; [None] on anything else. *)
Fixpoint read_digits (acc : nat) (s : jsstring) : option nat :=
  match s with
  | [] => Some acc
  | c :: s' =>
      if N.leb 48 c && N.leb c 57
      then read_digits (10 * acc + N.to_nat (c - 48)) s'
      else None
  end.

Definition read_decimal (s : jsstring) : option nat :=
  match s with
  | [] => None
  | _ => read_digits 0 s
  end.

(* ================================================================= *)
(** ** Values, exceptions and the runtime *)

#[warnings="-register-all"]
Inductive value (number : Type) : Type :=
| JUndefined
| JNull
| JBool (b : bool)
| JNum (n : number)
| JStr (s : jsstring)
| JArr (items : list (value number))
| JObj (fields : list (jsstring * value number)).

Arguments JUndefined {number}.
Arguments JNull {number}.
Arguments JBool {number} b.
Arguments JNum {number} n.
Arguments JStr {number} s.
Arguments JArr {number} items.
Arguments JObj {number} fields.

(** The outcome of an expression or statement that may throw. Every
    exception the modelled code can raise on these values is a
    [TypeError]; its text is engine specific and is not kept. *)
Inductive result (A : Type) : Type :=
| Ok (a : A)
| Throw.
Arguments Throw {A}.

Definition bind {A B} (r : result A) (k : A -> result B) : result B :=
  match r with
  | Ok a => k a
  | Throw => Throw
  end.

Notation "x <- r ;; k" := (bind r (fun x => k))
  (at level 61, r at next level, right associativity).

(** [xs.map(f)] for a callback that may throw: the first exception
    aborts the whole map. *)
Fixpoint map_result {A B} (f : A -> result B) (xs : list A) : result (list B) :=
  match xs with
  | [] => Ok []
  | x :: xs' =>
      y <- f x ;;
      ys <- map_result f xs' ;;
      Ok (y :: ys)
  end.

(** The Number type of the runtime (IEEE 754 binary64). *)
Class Numbers : Type := {
  number : Type;
  (** ToBoolean on a number: false for [0], [-0] and [NaN] *)
  number_truthy : number -> bool;
  (** Number::toString *)
  number_toString : number -> jsstring
}.

Section Values.
Context {NUM : Numbers}.

Definition val : Type := value number.

(** Own property lookup. *)
Fixpoint own (k : jsstring) (fields : list (jsstring * val)) : option val :=
  match fields with
  | [] => None
  | (k', v) :: rest => if streq k k' then Some v else own k rest
  end.

(** [v.k], for the property names the plugin reads: none of them is
    defined on a built-in prototype, so only a plain object can answer
    with something else than [undefined]; reading a property of
    [undefined] or [null] throws. *)
Definition get (v : val) (k : jsstring) : result val :=
  match v with
  | JUndefined | JNull => Throw
  | JObj fields =>
      match own k fields with
      | Some x => Ok x
      | None => Ok JUndefined
      end
  | _ => Ok JUndefined
  end.

(** [v?.k] *)
Definition get_opt (v : val) (k : jsstring) : val :=
  match get v k with
  | Ok x => x
  | Throw => JUndefined
  end.

(** ToBoolean *)
Definition truthy (v : val) : bool :=
  match v with
  | JUndefined | JNull => false
  | JBool b => b
  | JNum n => number_truthy n
  | JStr s => match s with [] => false | _ => true end
  | JArr _ | JObj _ => true
  end.

(** [v === 'lit'] *)
Definition is_str (v : val) (lit : jsstring) : bool :=
  match v with
  | JStr s => streq s lit
  | _ => false
  end.

(** [typeof v === 'object'] *)
Definition typeof_object (v : val) : bool :=
  match v with JNull | JArr _ | JObj _ => true | _ => false end.

(** ToString, as string concatenation and [Array.prototype.join]
    apply it. An array prints its elements joined by commas, [null] and
    [undefined] elements printing as nothing. A plain object prints as
    [[object Object]] unless it has an own property [toString], which
    coming from data is not callable: then no method yields a
    primitive and a [TypeError] is thrown. *)
Fixpoint toString (v : val) : result jsstring :=
  match v with
  | JUndefined => Ok (str "undefined")
  | JNull => Ok (str "null")
  | JBool true => Ok (str "true")
  | JBool false => Ok (str "false")
  | JNum n => Ok (number_toString n)
  | JStr s => Ok s
  | JArr items =>
      parts <- (fix elems (l : list val) : result (list jsstring) :=
                  match l with
                  | [] => Ok []
                  | x :: l' =>
                      p <- match x with
                           | JUndefined | JNull => Ok []
                           | _ => toString x
                           end ;;
                      ps <- elems l' ;;
                      Ok (p :: ps)
                  end) items ;;
      Ok (join (str ",") parts)
  | JObj fields =>
      match own (str "toString") fields with
      | Some _ => Throw
      | None => Ok (str "[object Object]")
      end
  end.

(** The string an element contributes to [Array.prototype.join]. *)
Definition join_piece (v : val) : result jsstring :=
  match v with
  | JUndefined | JNull => Ok []
  | _ => toString v
  end.

End Values.

(** The built-ins the plugin calls besides the operations on numbers. *)
Class Runtime {NUM : Numbers} : Type := {
  (** the relational comparison [v <= n] of an arbitrary value with a
      non-negative integer (ToPrimitive, ToNumber, then [<=]); [false]
      also stands for a comparison that throws *)
  js_le_nat : val -> nat -> bool;
  (** [JSON.parse(text)]; [None] when it throws a [SyntaxError] *)
  JSON_parse : jsstring -> option val
}.

Section Plugin.
Context {NUM : Numbers} {RT : Runtime}.

(* ================================================================= *)
(** ** The log record *)

(** [Date.now() - req.requestStartTime]: a number of milliseconds, or
    [NaN] when the start time is [undefined]. *)
Inductive millis : Type :=
| Millis (z : Z)
| NaN.

(** [RequestLogEntry.request] *)
Record RequestPart : Type := {
  request_model : val;
  request_max_tokens : val;
  request_temperature : val;
  request_system : val;
  request_messages : list val;
  request_tools : val;
  request_stream : val
}.

(** [RequestLogEntry.response]; [response_fullText] is a string whenever
    it is set. *)
Record ResponsePart : Type := {
  response_id : val;
  response_model : val;
  response_role : val;
  response_content : val;
  response_fullText : option jsstring;
  response_stop_reason : val;
  response_stop_sequence : val;
  response_usage : val
}.

Record RequestLogEntry : Type := {
  timestamp : jsstring;
  sessionId : val;
  preset : val;
  request : RequestPart;
  response : ResponsePart;
  duration_ms : option millis;
  error : val
}.

(** [response: {}] *)
Definition empty_response : ResponsePart :=
  {| response_id := JUndefined; response_model := JUndefined;
     response_role := JUndefined; response_content := JUndefined;
     response_fullText := None; response_stop_reason := JUndefined;
     response_stop_sequence := JUndefined; response_usage := JUndefined |}.

Definition set_response (e : RequestLogEntry) (r : ResponsePart) : RequestLogEntry :=
  {| timestamp := timestamp e; sessionId := sessionId e; preset := preset e;
     request := request e; response := r;
     duration_ms := duration_ms e; error := error e |}.

Definition set_duration_ms (e : RequestLogEntry) (d : millis) : RequestLogEntry :=
  {| timestamp := timestamp e; sessionId := sessionId e; preset := preset e;
     request := request e; response := response e;
     duration_ms := Some d; error := error e |}.

Definition set_error (e : RequestLogEntry) (err : val) : RequestLogEntry :=
  {| timestamp := timestamp e; sessionId := sessionId e; preset := preset e;
     request := request e; response := response e;
     duration_ms := duration_ms e; error := err |}.

Definition set_content (r : ResponsePart) (c : val) : ResponsePart :=
  {| response_id := response_id r; response_model := response_model r;
     response_role := response_role r; response_content := c;
     response_fullText := response_fullText r;
     response_stop_reason := response_stop_reason r;
     response_stop_sequence := response_stop_sequence r;
     response_usage := response_usage r |}.

Definition set_fullText (r : ResponsePart) (t : jsstring) : ResponsePart :=
  {| response_id := response_id r; response_model := response_model r;
     response_role := response_role r; response_content := response_content r;
     response_fullText := Some t;
     response_stop_reason := response_stop_reason r;
     response_stop_sequence := response_stop_sequence r;
     response_usage := response_usage r |}.

(* ================================================================= *)
(** ** Options and the sanitizer *)

(** The options the hooks read, after defaults were applied;
    [maxMessageLength] is a length, [0] meaning unlimited. *)
Record RequestLoggerOptions : Type := {
  includeSystemPrompt : bool;
  includeMessages : bool;
  includeTools : bool;
  maxMessageLength : nat
}.

Definition default_options : RequestLoggerOptions :=
  {| includeSystemPrompt := true; includeMessages := true;
     includeTools := false; maxMessageLength := 0 |}.

Definition truncated_marker (more : nat) : jsstring :=
  str "... [truncated, " ++ nat_toString more ++ str " more chars]".

(** [truncate(str, maxLength)] on a string. *)
Definition truncate (s : jsstring) (maxLength : nat) : jsstring :=
  if (maxLength =? 0) || (length s <=? maxLength) then s
  else substring_to maxLength s ++ truncated_marker (length s - maxLength).

(** [v.length <= maxLength] for a value that is not a string and not
    [undefined] or [null]: an array has its length, a plain object its
    own property [length] if any, and anything else [undefined], which
    compares false. *)
Definition length_le (v : val) (maxLength : nat) : bool :=
  match v with
  | JArr items => length items <=? maxLength
  | JObj fields =>
      match own (str "length") fields with
      | Some l => js_le_nat l maxLength
      | None => false
      end
  | _ => false
  end.

(** [truncate(v, maxLength)] where [v] has type [any]. Only a string has
    a [substring] method, so any other value is returned as it is when
    the guard holds and makes the call throw otherwise. *)
Definition truncate_any (v : val) (maxLength : nat) : result val :=
  match v with
  | JStr s => Ok (JStr (truncate s maxLength))
  | _ => if (maxLength =? 0) || length_le v maxLength then Ok v else Throw
  end.

Section Sanitizer.
Variable options : RequestLoggerOptions.

(** The callback of [msg.content.map] (source lines 99-116). Once
    [item.type] was read without a [TypeError], no later read of a
    property of [item] throws, so [item.text] is read up front. *)
Definition sanitize_item (item : val) : result val :=
  ty <- get item (str "type") ;;
  text <- get item (str "text") ;;
  if is_str ty (str "text") && truthy text then
    t <- (if 0 <? maxMessageLength options
          then truncate_any text (maxMessageLength options)
          else Ok text) ;;
    Ok (JObj [(str "type", JStr (str "text")); (str "text", t)])
  else if is_str ty (str "image") then
    Ok (JObj [(str "type", JStr (str "image"));
              (str "source", JStr (str "[IMAGE_DATA_OMITTED]"))])
  else if is_str ty (str "tool_use") then
    name <- get item (str "name") ;;
    id <- get item (str "id") ;;
    Ok (JObj [(str "type", JStr (str "tool_use"));
              (str "name", name); (str "id", id)])
  else if is_str ty (str "tool_result") then
    tool_use_id <- get item (str "tool_use_id") ;;
    Ok (JObj [(str "type", JStr (str "tool_result"));
              (str "tool_use_id", tool_use_id)])
  else Ok item.

(** The callback of [messages.map] (source lines 91-120). *)
Definition sanitize_message (msg : val) : result val :=
  role <- get msg (str "role") ;;
  content <- get msg (str "content") ;;
  match content with
  | JStr s =>
      Ok (JObj [(str "role", role);
                (str "content",
                 JStr (if 0 <? maxMessageLength options
                       then truncate s (maxMessageLength options)
                       else s))])
  | JArr items =>
      items' <- map_result sanitize_item items ;;
      Ok (JObj [(str "role", role); (str "content", JArr items')])
  | _ => Ok (JObj [(str "role", role)])
  end.

(** [sanitizeMessages(messages)]; [messages.map] exists on arrays only. *)
Definition sanitizeMessages (messages : val) : result (list val) :=
  if negb (includeMessages options) then Ok []
  else if negb (truthy messages) then Ok []
  else match messages with
       | JArr msgs => map_result sanitize_message msgs
       | _ => Throw
       end.

End Sanitizer.

(* ================================================================= *)
(** ** The request object, the log file and the streams *)

(** What the hooks read and write on the Fastify request object. *)
Record FastifyRequest : Type := {
  pathname : option jsstring;
  req_sessionId : val;
  req_preset : val;
  body : val;
  requestStartTime : option Z;
  logEntry : option RequestLogEntry
}.

Definition set_requestStartTime (req : FastifyRequest) (t : Z) : FastifyRequest :=
  {| pathname := pathname req; req_sessionId := req_sessionId req;
     req_preset := req_preset req; body := body req;
     requestStartTime := Some t; logEntry := logEntry req |}.

Definition set_logEntry (req : FastifyRequest) (e : RequestLogEntry) : FastifyRequest :=
  {| pathname := pathname req; req_sessionId := req_sessionId req;
     req_preset := req_preset req; body := body req;
     requestStartTime := requestStartTime req; logEntry := Some e |}.

(** What the hooks act on outside the request: the log file, one entry
    per appended line (the entry as it was when [JSON.stringify] ran),
    the lines given to [fastify.log.error], and whether [appendFile]
    currently rejects (with which message). *)
Record World : Type := {
  logFile : list RequestLogEntry;
  errorLog : list jsstring;
  appendFailure : option jsstring
}.

(** [await appendFile(logFile, JSON.stringify(entry) + '\n', 'utf-8')];
    [inr message] is a rejection. *)
Definition appendFile (w : World) (e : RequestLogEntry) : World + jsstring :=
  match appendFailure w with
  | None => inl {| logFile := logFile w ++ [e]; errorLog := errorLog w;
                   appendFailure := None |}
  | Some message => inr message
  end.

(** [fastify.log.error(line)] *)
Definition log_error (w : World) (line : jsstring) : World :=
  {| logFile := logFile w; errorLog := errorLog w ++ [line];
     appendFailure := appendFailure w |}.

(** A [ReadableStream] as its reader sees it: the chunks in order, each
    given as the text [decoder.decode(value, { stream: true })] yields for
    it, then either the end ([done]) or a rejected [read()]. A stream is
    errored with any value at all ([controller.error(reason)], with or
    without an argument), and [read()] rejects with that value: [reason]
    is what the [catch] of line 251 receives. *)
Inductive ending : Type :=
| Closed
| Errored (reason : val).

Record ReadableStream : Type := {
  chunks : list jsstring;
  ending_of : ending
}.

(** [payload.tee()]: two branches that deliver what the source stream
    delivers. *)
Definition tee (s : ReadableStream) : ReadableStream * ReadableStream := (s, s).

(** The payload of [onSend]. *)
Inductive payload : Type :=
| PStream (s : ReadableStream)
| PValue (v : val).

(** [Date.now() - req.requestStartTime] *)
Definition elapsed (now : Z) (req : FastifyRequest) : millis :=
  match requestStartTime req with
  | Some t => Millis (now - t)
  | None => NaN
  end.

(** [a || b] *)
Definition or_else (a b : val) : val := if truthy a then a else b.

(* ================================================================= *)
(** ** preHandler (source lines 124-163) *)

Section Hooks.
Variable options : RequestLoggerOptions.

Definition endpoint : jsstring := str "/v1/messages".

(** [req.pathname?.endsWith('/v1/messages')] *)
Definition targets_endpoint (req : FastifyRequest) : bool :=
  match pathname req with
  | Some p => endsWith endpoint p
  | None => false
  end.

(** [logEntry.request.system], source lines 143-151. *)
Definition logged_system (system : val) : val :=
  if includeSystemPrompt options && truthy system then
    match system with
    | JStr s => JStr (if 0 <? maxMessageLength options
                      then truncate s (maxMessageLength options * 2)
                      else s)
    | _ => system
    end
  else JUndefined.

(** [logEntry.request.tools], source lines 154-159. *)
Definition logged_tools (tools : val) : result val :=
  if includeTools options && truthy tools then
    match tools with
    | JArr ts =>
        ts' <- map_result
                 (fun tool =>
                    name <- get tool (str "name") ;;
                    description <- get tool (str "description") ;;
                    Ok (JObj [(str "name", name);
                              (str "description", description)]))
                 ts ;;
        Ok (JArr ts')
    | _ => Throw
    end
  else Ok JUndefined.

(** The entry [preHandler] builds, or the exception that building it
    raises. *)
Definition new_logEntry (iso : jsstring) (req : FastifyRequest) : result RequestLogEntry :=
  let b := body req in
  messages <- sanitizeMessages options
                (or_else (get_opt b (str "messages")) (JArr [])) ;;
  tools <- logged_tools (get_opt b (str "tools")) ;;
  Ok {| timestamp := iso;
        sessionId := or_else (req_sessionId req) (JStr (str "unknown"));
        preset := req_preset req;
        request :=
          {| request_model := get_opt b (str "model");
             request_max_tokens := get_opt b (str "max_tokens");
             request_temperature := get_opt b (str "temperature");
             request_system := logged_system (get_opt b (str "system"));
             request_messages := messages;
             request_tools := tools;
             request_stream := get_opt b (str "stream") |};
        response := empty_response;
        duration_ms := None;
        error := JUndefined |}.

(** The hook, run at time [now] whose ISO rendering is [iso]. It gives
    the request object as the hook leaves it, and whether the hook
    returned or threw. *)
Definition preHandler (now : Z) (iso : jsstring) (req : FastifyRequest)
  : FastifyRequest * result unit :=
  if targets_endpoint req then
    let req1 := set_requestStartTime req now in
    match new_logEntry iso req with
    | Ok e => (set_logEntry req1 e, Ok tt)
    | Throw => (req1, Throw)
    end
  else (req, Ok tt).

(* ================================================================= *)
(** ** The streaming collector (source lines 177-254) *)

(** The local variables of the background task, and the log entry it
    shares with the hooks. *)
Record Collector : Type := {
  fullText : jsstring;
  lastUsage : val;
  lastStopReason : val;
  messageId : val;
  model : val;
  entry : RequestLogEntry
}.

Definition start_collector (e : RequestLogEntry) : Collector :=
  {| fullText := []; lastUsage := JNull; lastStopReason := JUndefined;
     messageId := JUndefined; model := JUndefined; entry := e |}.

(** [logEntry.response.content.push(block)], after the array was created
    if [content] was falsy. *)
Definition push_content (e : RequestLogEntry) (block : val) : result RequestLogEntry :=
  match or_else (response_content (response e)) (JArr []) with
  | JArr items =>
      Ok (set_response e (set_content (response e) (JArr (items ++ [block]))))
  | _ => Throw
  end.

(** The four statements of the inner [try] (source lines 199-230), for
    an event [data] whose [type] is [ty]. *)

(** [// Capture message_start], lines 200-203. *)
Definition capture_message_start (ty data : val) (c : Collector) : Collector :=
  if is_str ty (str "message_start") then
    let message := get_opt data (str "message") in
    {| fullText := fullText c; lastUsage := lastUsage c;
       lastStopReason := lastStopReason c;
       messageId := get_opt message (str "id");
       model := get_opt message (str "model");
       entry := entry c |}
  else c.

(** [// Capture text content], lines 206-208; [+=] converts its right
    operand to a string, which may throw. *)
Definition capture_text (ty data : val) (c : Collector) : result Collector :=
  let text := get_opt (get_opt data (str "delta")) (str "text") in
  if is_str ty (str "content_block_delta") && truthy text then
    t <- toString text ;;
    Ok {| fullText := fullText c ++ t; lastUsage := lastUsage c;
          lastStopReason := lastStopReason c;
          messageId := messageId c; model := model c;
          entry := entry c |}
  else Ok c.

(** [// Capture tool use], lines 211-220. *)
Definition capture_tool_use (ty data : val) (c : Collector) : result Collector :=
  let content_block := get_opt data (str "content_block") in
  if is_str ty (str "content_block_start")
     && is_str (get_opt content_block (str "type")) (str "tool_use") then
    e <- push_content (entry c)
           (JObj [(str "type", JStr (str "tool_use"));
                  (str "name", get_opt content_block (str "name"));
                  (str "id", get_opt content_block (str "id"))]) ;;
    Ok {| fullText := fullText c; lastUsage := lastUsage c;
          lastStopReason := lastStopReason c;
          messageId := messageId c; model := model c;
          entry := e |}
  else Ok c.

(** [// Capture message_delta with usage], lines 223-230. *)
Definition capture_message_delta (ty data : val) (c : Collector) : Collector :=
  if is_str ty (str "message_delta") then
    let usage := get_opt data (str "usage") in
    let stop_reason := get_opt (get_opt data (str "delta")) (str "stop_reason") in
    {| fullText := fullText c;
       lastUsage := if truthy usage then usage else lastUsage c;
       lastStopReason :=
         if truthy stop_reason then stop_reason else lastStopReason c;
       messageId := messageId c; model := model c;
       entry := entry c |}
  else c.

(** The body of the inner [try] once [JSON.parse] returned [data]. Reading
    [data.type] throws when [data] is [null]; an exception leaves the
    statements after it undone and is swallowed by the [catch] of line
    231. *)
Definition on_data (data : val) (c : Collector) : Collector :=
  match get data (str "type") with
  | Throw => c
  | Ok ty =>
      let c1 := capture_message_start ty data c in
      match capture_text ty data c1 with
      | Throw => c1
      | Ok c2 =>
          match capture_tool_use ty data c2 with
          | Throw => c2
          | Ok c3 => capture_message_delta ty data c3
          end
      end
  end.

(** One iteration of [for (const line of lines)]. *)
Definition on_line (c : Collector) (line : jsstring) : Collector :=
  if startsWith (str "data: ") line then
    match JSON_parse (substring_from 6 line) with
    | Some data => on_data data c
    | None => c
    end
  else c.

(** One iteration of the [while] loop on a chunk that was read. *)
Definition on_chunk (c : Collector) (chunk : jsstring) : Collector :=
  fold_left on_line (split_lines chunk) c.

Definition read_chunks (c : Collector) (cs : list jsstring) : Collector :=
  fold_left on_chunk cs c.

(** Source lines 239-246. *)
Definition finalize (c : Collector) : RequestLogEntry :=
  let r := response (entry c) in
  set_response (entry c)
    {| response_id := messageId c;
       response_model := model c;
       response_role := response_role r;
       response_content := response_content r;
       response_fullText := Some (fullText c);
       response_stop_reason := lastStopReason c;
       response_stop_sequence := response_stop_sequence r;
       response_usage :=
         if truthy (lastUsage c) then lastUsage c else response_usage r |}.

Definition collecting_error (message : jsstring) : jsstring :=
  str "Error collecting streaming response: " ++ message.

(** The [catch] of source lines 251-253 on the value [read()] rejected
    with: [error.message] is read, which throws when [error] is
    [undefined] or [null]; the template literal prints what was read
    ([undefined] prints as such); the line is logged. [Throw] is the
    handler itself throwing, before anything is logged. *)
Definition report_failure (w : World) (error : val) : result World :=
  message <- get error (str "message") ;;
  text <- toString message ;;
  Ok (log_error w (collecting_error text)).

(** The background task run to its end on the logging branch: the log
    entry and the world it leaves. A rejection of [appendFile] is an
    [Error] whose message is a string, so the [catch] logs its line; a
    rejected [read()] goes through [report_failure], and leaves the world
    as it is when the handler throws. *)
Definition collect (e : RequestLogEntry) (s : ReadableStream) (w : World)
  : RequestLogEntry * World :=
  let c := read_chunks (start_collector e) (chunks s) in
  match ending_of s with
  | Errored reason =>
      (entry c, match report_failure w reason with
                | Ok w' => w'
                | Throw => w
                end)
  | Closed =>
      let e' := finalize c in
      match appendFile w e' with
      | inl w' => (e', w')
      | inr message => (e', log_error w (collecting_error message))
      end
  end.

(** How the promise of the detached task settles: it is fulfilled unless
    the [catch] handler itself throws; nothing awaits or handles that
    promise, so [Throw] is an unhandled rejection. *)
Definition background_task (s : ReadableStream) (w : World) : result unit :=
  match ending_of s with
  | Closed => Ok tt
  | Errored reason => logged <- report_failure w reason ;; Ok tt
  end.

(* ================================================================= *)
(** ** onSend (source lines 166-292) and onError (source lines 295-307) *)

(** What a run of a hook leaves behind: the request object, the world,
    and the value the hook returned or the fact that it threw. For a
    stream the world is the one the detached background task leaves when
    it has run to its end; the returned value does not wait for it. *)
Record Run (A : Type) : Type := {
  run_request : FastifyRequest;
  run_world : World;
  run_result : result A
}.

(** [xs.filter(f)] for a callback that may throw. *)
Fixpoint filter_result {A} (f : A -> result bool) (xs : list A) : result (list A) :=
  match xs with
  | [] => Ok []
  | x :: xs' =>
      keep <- f x ;;
      rest <- filter_result f xs' ;;
      Ok (if keep then x :: rest else rest)
  end.

(** [payload.content.filter(...).map(...).join('\n')], source lines
    277-280. *)
Definition textContent (items : list val) : result jsstring :=
  blocks <- filter_result
              (fun item => ty <- get item (str "type") ;; Ok (is_str ty (str "text")))
              items ;;
  texts <- map_result (fun item => get item (str "text")) blocks ;;
  pieces <- map_result join_piece texts ;;
  Ok (join [LF] pieces).

(** Source lines 261-285 on a payload whose [typeof] is ['object']: the
    entry as these lines leave it, and whether they completed. *)
Definition summarize (v : val) (e : RequestLogEntry) : RequestLogEntry * result unit :=
  match get v (str "error") with
  | Throw => (e, Throw)
  | Ok err =>
      if truthy err then
        (set_error e (JObj [(str "type", get_opt err (str "type"));
                            (str "message", get_opt err (str "message"))]),
         Ok tt)
      else
        let e1 :=
          set_response e
            {| response_id := get_opt v (str "id");
               response_model := get_opt v (str "model");
               response_role := get_opt v (str "role");
               response_content := get_opt v (str "content");
               response_fullText := response_fullText (response e);
               response_stop_reason := get_opt v (str "stop_reason");
               response_stop_sequence := get_opt v (str "stop_sequence");
               response_usage := get_opt v (str "usage") |} in
        match get_opt v (str "content") with
        | JArr items =>
            match textContent items with
            | Throw => (e1, Throw)
            | Ok [] => (e1, Ok tt)
            | Ok t => (set_response e1 (set_fullText (response e1) t), Ok tt)
            end
        | _ => (e1, Ok tt)
        end
  end.

Definition onSend (now : Z) (req : FastifyRequest) (w : World) (p : payload)
  : Run payload :=
  match logEntry req with
  | None => {| run_request := req; run_world := w; run_result := Ok p |}
  | Some e =>
      let e0 := set_duration_ms e (elapsed now req) in
      match p with
      | PStream s =>
          let '(loggingStream, originalStream) := tee s in
          let '(e1, w1) := collect e0 loggingStream w in
          {| run_request := set_logEntry req e1; run_world := w1;
             run_result := Ok (PStream originalStream) |}
      | PValue v =>
          if typeof_object v then
            match summarize v e0 with
            | (e1, Throw) =>
                {| run_request := set_logEntry req e1; run_world := w;
                   run_result := Throw |}
            | (e1, Ok _) =>
                match appendFile w e1 with
                | inl w1 =>
                    {| run_request := set_logEntry req e1; run_world := w1;
                       run_result := Ok p |}
                | inr _ =>
                    {| run_request := set_logEntry req e1; run_world := w;
                       run_result := Throw |}
                end
            end
          else
            {| run_request := set_logEntry req e0; run_world := w;
               run_result := Ok p |}
      end
  end.

Definition onError (now : Z) (req : FastifyRequest) (w : World) (err : val)
  : Run unit :=
  match logEntry req with
  | None => {| run_request := req; run_world := w; run_result := Ok tt |}
  | Some e =>
      let e0 := set_duration_ms e (elapsed now req) in
      match (message <- get err (str "message") ;;
             stack <- get err (str "stack") ;;
             code <- get err (str "code") ;;
             Ok (JObj [(str "message", message); (str "stack", stack);
                       (str "code", code)])) with
      | Throw =>
          {| run_request := set_logEntry req e0; run_world := w;
             run_result := Throw |}
      | Ok projection =>
          let e1 := set_error e0 projection in
          match appendFile w e1 with
          | inl w1 =>
              {| run_request := set_logEntry req e1; run_world := w1;
                 run_result := Ok tt |}
          | inr _ =>
              {| run_request := set_logEntry req e1; run_world := w;
                 run_result := Throw |}
          end
      end
  end.

End Hooks.

End Plugin.

(* ================================================================= *)
(** ** What the specification speaks of

    The definitions of this section are not translations of source
    code: they say, in the words of the specification, what a stream or a
    payload carries, and the properties below compare the hooks with
    them. *)

Section Specification.
Context {NUM : Numbers} {RT : Runtime}.

(** The text delta an event carries: the [delta.text] of an event of
    type [content_block_delta], as a string; nothing for any other event
    and for an empty, absent or unprintable text. *)
Definition text_delta (data : val) : jsstring :=
  if is_str (get_opt data (str "type")) (str "content_block_delta") then
    let text := get_opt (get_opt data (str "delta")) (str "text") in
    if truthy text then
      match toString text with
      | Ok t => t
      | Throw => []
      end
    else []
  else [].

(** The text delta a line of the stream carries: that of its event when
    the line is a data frame with a well-formed body. *)
Definition frame_text (line : jsstring) : jsstring :=
  if startsWith (str "data: ") line then
    match JSON_parse (substring_from 6 line) with
    | Some data => text_delta data
    | None => []
    end
  else [].

(** The text deltas of all the frames of a stream given as one text, in
    order. *)
Definition stream_text (whole : jsstring) : jsstring :=
  concat (map frame_text (split_lines whole)).

(** No line is cut by a chunk boundary: every chunk but the last is empty
    or ends with a line feed. *)
Fixpoint line_aligned (cs : list jsstring) : bool :=
  match cs with
  | [] => true
  | c :: rest =>
      match rest with
      | [] => true
      | _ => (match c with [] => true | _ => endsWith [LF] c end)
             && line_aligned rest
      end
  end.

Definition is_message_start (data : val) : bool :=
  is_str (get_opt data (str "type")) (str "message_start").

(** The last event of type [message_start] of a sequence, if any. *)
Fixpoint last_message_start (events : list val) : option val :=
  match events with
  | [] => None
  | d :: rest =>
      match last_message_start rest with
      | Some m => Some m
      | None => if is_message_start d then Some d else None
      end
  end.

(** A content block of a response: a plain object which, when its type
    is [text], has a string for [text] or no [text] at all. *)
Definition is_block (item : val) : bool :=
  match item with
  | JObj fields =>
      if is_str (get_opt item (str "type")) (str "text") then
        match own (str "text") fields with
        | Some (JStr _) | Some JUndefined | Some JNull | None => true
        | Some _ => false
        end
      else true
  | _ => false
  end.

(** The [text] fields of the text-typed blocks, in order; a block
    without [text] counts for the empty string. *)
Fixpoint block_texts (items : list val) : list jsstring :=
  match items with
  | [] => []
  | item :: rest =>
      if is_str (get_opt item (str "type")) (str "text") then
        match get_opt item (str "text") with
        | JStr s => s :: block_texts rest
        | _ => [] :: block_texts rest
        end
      else block_texts rest
  end.

(** Whether a block is text-typed, and its [text] as a string. *)
Definition is_text_block (item : val) : bool :=
  is_str (get_opt item (str "type")) (str "text").

Definition block_piece (item : val) : jsstring :=
  match get_opt item (str "text") with
  | JStr s => s
  | _ => []
  end.

(** The string that the [text] of an item of any kind stands for in the
    joined text: the text itself when it is a string, the empty string
    when it is absent, [undefined] or [null], and the printed form of
    any other value; nothing when that value cannot be printed. *)
Definition text_of (item : val) : option jsstring :=
  match get_opt item (str "text") with
  | JStr s => Some s
  | JUndefined | JNull => Some []
  | other =>
      match toString other with
      | Ok s => Some s
      | Throw => None
      end
  end.

(** The texts of the text-typed items of an array of any values, in
    order; nothing when an item is [undefined] or [null], from which no
    [type] can be read, or when a text cannot be printed. *)
Fixpoint texts_of (items : list val) : option (list jsstring) :=
  match items with
  | [] => Some []
  | JUndefined :: _ | JNull :: _ => None
  | item :: rest =>
      if is_text_block item then
        match text_of item, texts_of rest with
        | Some t, Some ts => Some (t :: ts)
        | _, _ => None
        end
      else texts_of rest
  end.

End Specification.

(* ================================================================= *)
(** ** What the further properties speak of

    Like the definitions of the previous section, these describe inputs
    and expected records; they translate no source code. *)

Section Projections.
Context {NUM : Numbers} {RT : Runtime}.

(** The block logged in place of an image, and the entries logged for a
    tool use, a tool result and a tool definition. *)
Definition image_placeholder : val :=
  JObj [(str "type", JStr (str "image"));
        (str "source", JStr (str "[IMAGE_DATA_OMITTED]"))].

Definition tool_use_entry (block : val) : val :=
  JObj [(str "type", JStr (str "tool_use"));
        (str "name", get_opt block (str "name"));
        (str "id", get_opt block (str "id"))].

Definition tool_result_entry (block : val) : val :=
  JObj [(str "type", JStr (str "tool_result"));
        (str "tool_use_id", get_opt block (str "tool_use_id"))].

Definition tool_descriptor (tool : val) : val :=
  JObj [(str "name", get_opt tool (str "name"));
        (str "description", get_opt tool (str "description"))].

(** The [usage] of an event of type [message_delta] that carries one. *)
Definition usage_of (data : val) : option val :=
  if is_str (get_opt data (str "type")) (str "message_delta")
     && truthy (get_opt data (str "usage"))
  then Some (get_opt data (str "usage"))
  else None.

(** The stop reason of an event of type [message_delta] that carries
    one. *)
Definition stop_reason_of (data : val) : option val :=
  let stop_reason := get_opt (get_opt data (str "delta")) (str "stop_reason") in
  if is_str (get_opt data (str "type")) (str "message_delta")
     && truthy stop_reason
  then Some stop_reason
  else None.

(** The last event for which [f] gives something, and what it gives. *)
Fixpoint last_of (f : val -> option val) (events : list val) : option val :=
  match events with
  | [] => None
  | d :: rest =>
      match last_of f rest with
      | Some x => Some x
      | None => f d
      end
  end.

(** The entry of the tool use an event announces: the event is of type
    [content_block_start] and its block of type [tool_use]. *)
Definition tool_use_of (data : val) : option val :=
  let content_block := get_opt data (str "content_block") in
  if is_str (get_opt data (str "type")) (str "content_block_start")
     && is_str (get_opt content_block (str "type")) (str "tool_use")
  then Some (tool_use_entry content_block)
  else None.

(** The tool uses a sequence of events announces, in order. *)
Fixpoint tool_uses (events : list val) : list val :=
  match events with
  | [] => []
  | d :: rest =>
      match tool_use_of d with
      | Some b => b :: tool_uses rest
      | None => tool_uses rest
      end
  end.

(** A line that is no data frame with a well-formed body. *)
Definition no_frame (line : jsstring) : bool :=
  if startsWith (str "data: ") line then
    match JSON_parse (substring_from 6 line) with
    | Some _ => false
    | None => true
    end
  else true.

(** The parts of an entry that [preHandler] fills and no later hook
    writes. *)
Definition same_capture (e e' : RequestLogEntry) : Prop :=
  timestamp e' = timestamp e /\ sessionId e' = sessionId e
  /\ preset e' = preset e /\ request e' = request e.

(** A message of a chat request: a plain object whose [content], when
    it is an array, holds blocks. *)
Definition is_chat_message (msg : val) : bool :=
  match msg with
  | JObj fields =>
      match own (str "content") fields with
      | Some (JArr items) => forallb is_block items
      | _ => true
      end
  | _ => false
  end.

(** An event the collector knows: its [type] is one of the four the
    collector tests for. *)
Definition is_known_event (data : val) : bool :=
  let ty := get_opt data (str "type") in
  is_str ty (str "message_start") || is_str ty (str "content_block_delta")
  || is_str ty (str "content_block_start") || is_str ty (str "message_delta").

End Projections.

(* ================================================================= *)
(** ** A reference runtime

    Numbers are exact decimals [mantissa * 10 ^ exponent]: what a numeric
    literal denotes before it is rounded to binary64. The two agree on
    every literal of at most 15 significant digits whose magnitude lies
    in the binary64 range, which covers the inputs run below. *)

Module Ref.

Inductive num : Type :=
| Dec (mantissa exponent : Z).

Definition rval : Type := value num.

Definition num_truthy (x : num) : bool :=
  match x with Dec m _ => negb (m =? 0)%Z end.

Definition ZERO : codeunit := 48%N.

(** The digits of a positive mantissa without its trailing zeros, and
    how many zeros were dropped. *)
Fixpoint drop_zeros (rev_digits : jsstring) (dropped : nat) : jsstring * nat :=
  match rev_digits with
  | c :: rest =>
      if N.eqb c ZERO then drop_zeros rest (S dropped) else (rev rev_digits, dropped)
  | [] => ([], dropped)
  end.

(** Number::toString(x) of ECMAScript, steps 5 to 10, on [s * 10^(n-k)]
    where [digits] are the [k] digits of [s]. *)
Definition layout (digits : jsstring) (n : Z) : jsstring :=
  let k := Z.of_nat (length digits) in
  if ((k <=? n) && (n <=? 21))%Z then
    digits ++ repeat ZERO (Z.to_nat (n - k))
  else if ((0 <? n) && (n <=? 21))%Z then
    firstn (Z.to_nat n) digits ++ str "." ++ skipn (Z.to_nat n) digits
  else if ((-6 <? n) && (n <=? 0))%Z then
    str "0." ++ repeat ZERO (Z.to_nat (- n)) ++ digits
  else
    let e := (n - 1)%Z in
    let sign := if (e <? 0)%Z then str "-" else str "+" in
    let expo := uint_digits (N.to_uint (Z.abs_N e)) in
    match digits with
    | [d] => [d] ++ str "e" ++ sign ++ expo
    | d :: more => [d] ++ str "." ++ more ++ str "e" ++ sign ++ expo
    | [] => []
    end.

Definition num_toString (x : num) : jsstring :=
  match x with
  | Dec m e =>
      if (m =? 0)%Z then str "0"
      else
        let all := uint_digits (N.to_uint (Z.abs_N m)) in
        let '(digits, dropped) := drop_zeros (rev all) 0 in
        let n := (Z.of_nat (length digits) + Z.of_nat dropped + e)%Z in
        (if (m <? 0)%Z then str "-" else []) ++ layout digits n
  end.

(** [x <= n] on exact decimals. *)
Definition num_le_nat (x : num) (n : nat) : bool :=
  match x with
  | Dec m e =>
      if (0 <=? e)%Z then (m * 10 ^ e <=? Z.of_nat n)%Z
      else (m <=? Z.of_nat n * 10 ^ (- e))%Z
  end.

(** *** Scanning numeric literals *)

Definition digit_of (c : codeunit) : option Z :=
  if (N.leb 48 c && N.leb c 57)%bool then Some (Z.of_N (c - 48)) else None.

(** Reads decimal digits onto [acc]; gives the value, the number of
    digits read and the rest. *)
Fixpoint scan_digits (acc : Z) (count : nat) (s : jsstring) : Z * nat * jsstring :=
  match s with
  | c :: s' =>
      match digit_of c with
      | Some d => scan_digits (acc * 10 + d) (S count) s'
      | None => (acc, count, s)
      end
  | [] => (acc, count, [])
  end.

(** An optional fraction [. digits] after the integer part [i];
    [need_digit] tells whether a digit must follow the point. *)
Definition scan_fraction (need_digit : bool) (i : Z) (s : jsstring)
  : option (Z * Z * jsstring) :=
  match s with
  | 46%N :: s1 =>
      let '(m, k, s2) := scan_digits i 0 s1 in
      if (need_digit && (k =? 0))%bool then None
      else Some (m, (- Z.of_nat k)%Z, s2)
  | _ => Some (i, 0%Z, s)
  end.

(** An optional exponent part [e], [E] with an optional sign. *)
Definition scan_exponent (m e : Z) (s : jsstring) : option (num * jsstring) :=
  let after_sign (neg : bool) (s1 : jsstring) :=
    let '(x, k, s2) := scan_digits 0 0 s1 in
    if k =? 0 then None
    else Some (Dec m (if neg then e - x else e + x)%Z, s2) in
  match s with
  | 101%N :: s1 | 69%N :: s1 =>
      match s1 with
      | 45%N :: s2 => after_sign true s2
      | 43%N :: s2 => after_sign false s2
      | _ => after_sign false s1
      end
  | _ => Some (Dec m e, s)
  end.

(** A JSON number: an optional minus sign; an integer part that is
    either the digit 0 alone or starts with a digit from 1 to 9; an
    optional fraction, a point and at least one digit; an optional
    exponent, e or E, an optional sign and at least one digit. *)
Definition parse_number (s : jsstring) : option (num * jsstring) :=
  let '(neg, s1) := match s with
                    | 45%N :: r => (true, r)
                    | _ => (false, s)
                    end in
  let finish (i : Z) (r : jsstring) :=
    match scan_fraction true i r with
    | Some (m, e, r1) => scan_exponent (if neg then - m else m)%Z e r1
    | None => None
    end in
  match s1 with
  | 48%N :: r => finish 0%Z r
  | c :: _ =>
      match digit_of c with
      | Some _ => let '(i, _, r) := scan_digits 0 0 s1 in finish i r
      | None => None
      end
  | [] => None
  end.

(** *** JSON.parse *)

Definition is_ws (c : codeunit) : bool :=
  (N.eqb c 32 || N.eqb c 9 || N.eqb c 10 || N.eqb c 13)%bool.

Fixpoint skip_ws (s : jsstring) : jsstring :=
  match s with
  | c :: s' => if is_ws c then skip_ws s' else s
  | [] => []
  end.

Definition hex_of (c : codeunit) : option N :=
  if (N.leb 48 c && N.leb c 57)%bool then Some (c - 48)%N
  else if (N.leb 65 c && N.leb c 70)%bool then Some (c - 55)%N
  else if (N.leb 97 c && N.leb c 102)%bool then Some (c - 87)%N
  else None.

Definition hex4 (a b c d : codeunit) : option codeunit :=
  match hex_of a, hex_of b, hex_of c, hex_of d with
  | Some x, Some y, Some z, Some t => Some (((x * 16 + y) * 16 + z) * 16 + t)%N
  | _, _, _, _ => None
  end.

(** The characters of a string literal after its opening quote, up to
    the closing one. *)
Fixpoint parse_chars (acc : jsstring) (s : jsstring) : option (jsstring * jsstring) :=
  match s with
  | [] => None
  | 34%N :: rest => Some (rev acc, rest)
  | 92%N :: 117%N :: a :: b :: c :: d :: rest =>
      match hex4 a b c d with
      | Some u => parse_chars (u :: acc) rest
      | None => None
      end
  | 92%N :: e :: rest =>
      match (if N.eqb e 34 then Some 34 else if N.eqb e 92 then Some 92
             else if N.eqb e 47 then Some 47 else if N.eqb e 98 then Some 8
             else if N.eqb e 102 then Some 12 else if N.eqb e 110 then Some 10
             else if N.eqb e 114 then Some 13 else if N.eqb e 116 then Some 9
             else None)%N with
      | Some c => parse_chars (c :: acc) rest
      | None => None
      end
  | c :: rest =>
      if N.ltb c 32 || N.eqb c 92 then None else parse_chars (c :: acc) rest
  end.

(** Defining a property: a repeated name keeps its place and takes the
    later value. *)
Fixpoint define (k : jsstring) (v : rval) (fields : list (jsstring * rval))
  : list (jsstring * rval) :=
  match fields with
  | [] => [(k, v)]
  | (k', v') :: rest =>
      if streq k k' then (k', v) :: rest else (k', v') :: define k v rest
  end.

Fixpoint parse_value (fuel : nat) (s : jsstring) : option (rval * jsstring) :=
  match fuel with
  | O => None
  | S fuel' =>
      match skip_ws s with
      | 123%N :: r =>
          match skip_ws r with
          | 125%N :: r' => Some (JObj [], r')
          | _ => parse_members fuel' [] r
          end
      | 91%N :: r =>
          match skip_ws r with
          | 93%N :: r' => Some (JArr [], r')
          | _ => parse_elements fuel' [] r
          end
      | 34%N :: r =>
          match parse_chars [] r with
          | Some (t, r') => Some (JStr t, r')
          | None => None
          end
      | 116%N :: 114%N :: 117%N :: 101%N :: r => Some (JBool true, r)
      | 102%N :: 97%N :: 108%N :: 115%N :: 101%N :: r => Some (JBool false, r)
      | 110%N :: 117%N :: 108%N :: 108%N :: r => Some (JNull, r)
      | s' =>
          match parse_number s' with
          | Some (x, r) => Some (JNum x, r)
          | None => None
          end
      end
  end
with parse_elements (fuel : nat) (acc : list rval) (s : jsstring)
  : option (rval * jsstring) :=
  match fuel with
  | O => None
  | S fuel' =>
      match parse_value fuel' s with
      | Some (v, r) =>
          match skip_ws r with
          | 44%N :: r' => parse_elements fuel' (v :: acc) r'
          | 93%N :: r' => Some (JArr (rev (v :: acc)), r')
          | _ => None
          end
      | None => None
      end
  end
with parse_members (fuel : nat) (acc : list (jsstring * rval)) (s : jsstring)
  : option (rval * jsstring) :=
  match fuel with
  | O => None
  | S fuel' =>
      match skip_ws s with
      | 34%N :: r =>
          match parse_chars [] r with
          | Some (k, r1) =>
              match skip_ws r1 with
              | 58%N :: r2 =>
                  match parse_value fuel' r2 with
                  | Some (v, r3) =>
                      match skip_ws r3 with
                      | 44%N :: r4 => parse_members fuel' (define k v acc) r4
                      | 125%N :: r4 => Some (JObj (define k v acc), r4)
                      | _ => None
                      end
                  | None => None
                  end
              | _ => None
              end
          | None => None
          end
      | _ => None
      end
  end.

(** [JSON.parse(text)]: one value, then nothing but white space. *)
Definition parse (text : jsstring) : option rval :=
  match parse_value (2 * length text + 2) text with
  | Some (v, r) => match skip_ws r with [] => Some v | _ => None end
  | None => None
  end.

Definition numbers : Numbers :=
  {| number := num; number_truthy := num_truthy; number_toString := num_toString |}.

(** *** ToNumber and the comparison with a length *)

(** A number, an infinity or [NaN]. *)
Inductive extended : Type :=
| Finite (x : num)
| Infinite (negative : bool)
| NotANumber.

(** WhiteSpace and LineTerminator code units, which StringToNumber
    strips at both ends. *)
Definition is_space (c : codeunit) : bool :=
  (N.leb 9 c && N.leb c 13 || N.eqb c 32 || N.eqb c 160 || N.eqb c 5760
   || N.leb 8192 c && N.leb c 8202 || N.eqb c 8232 || N.eqb c 8233
   || N.eqb c 8239 || N.eqb c 8287 || N.eqb c 12288 || N.eqb c 65279)%bool.

Fixpoint drop_space (s : jsstring) : jsstring :=
  match s with
  | c :: s' => if is_space c then drop_space s' else s
  | [] => []
  end.

Definition trim (s : jsstring) : jsstring :=
  rev (drop_space (rev (drop_space s))).

(** Digits in base [base] (2, 8 or 16), at least one and nothing else. *)
Fixpoint scan_radix (base : N) (acc : N) (s : jsstring) : option N :=
  match s with
  | [] => Some acc
  | c :: s' =>
      match hex_of c with
      | Some d => if N.ltb d base then scan_radix base (acc * base + d)%N s' else None
      | None => None
      end
  end.

Definition radix_literal (base : N) (digits : jsstring) : extended :=
  match digits with
  | [] => NotANumber
  | _ => match scan_radix base 0 digits with
         | Some n => Finite (Dec (Z.of_N n) 0)
         | None => NotANumber
         end
  end.

(** StrUnsignedDecimalLiteral other than [Infinity]: digits, an optional
    point and digits, with at least one digit in all, then an optional
    exponent part. *)
Definition decimal_literal (negative : bool) (s : jsstring) : extended :=
  let '(i, ki, r) := scan_digits 0 0 s in
  match scan_fraction false i r with
  | Some (m, e, r1) =>
      if (Z.of_nat ki - e =? 0)%Z then NotANumber
      else match scan_exponent (if negative then - m else m)%Z e r1 with
           | Some (x, []) => Finite x
           | _ => NotANumber
           end
  | None => NotANumber
  end.

(** StringToNumber *)
Definition string_to_number (s : jsstring) : extended :=
  match trim s with
  | [] => Finite (Dec 0 0)
  | 48%N :: 120%N :: digits | 48%N :: 88%N :: digits => radix_literal 16 digits
  | 48%N :: 111%N :: digits | 48%N :: 79%N :: digits => radix_literal 8 digits
  | 48%N :: 98%N :: digits | 48%N :: 66%N :: digits => radix_literal 2 digits
  | t =>
      let '(negative, u) := match t with
                            | 45%N :: u => (true, u)
                            | 43%N :: u => (false, u)
                            | _ => (false, t)
                            end in
      if streq u (str "Infinity") then Infinite negative
      else decimal_literal negative u
  end.

(** ToNumber; [None] when ToPrimitive throws. *)
Definition to_number (v : rval) : option extended :=
  match v with
  | JUndefined => Some NotANumber
  | JNull => Some (Finite (Dec 0 0))
  | JBool b => Some (Finite (Dec (if b then 1 else 0) 0))
  | JNum x => Some (Finite x)
  | JStr s => Some (string_to_number s)
  | JArr _ | JObj _ =>
      match @toString numbers v with
      | Ok s => Some (string_to_number s)
      | Throw => None
      end
  end.

Definition le_nat (v : rval) (n : nat) : bool :=
  match to_number v with
  | Some (Finite x) => num_le_nat x n
  | Some (Infinite negative) => negative
  | Some NotANumber | None => false
  end.

Definition runtime : @Runtime numbers :=
  @Build_Runtime numbers le_nat parse.

End Ref.

(* ================================================================= *)
(** ** Inputs used to run the hooks *)

Module Demo.

#[local] Existing Instance Ref.numbers.
#[local] Existing Instance Ref.runtime.

Definition parsed (text : string) : Ref.rval :=
  match Ref.parse (json_text text) with
  | Some v => v
  | None => JUndefined
  end.

(** A request to the message endpoint, as Fastify hands it to
    [preHandler]. *)
Definition incoming : FastifyRequest :=
  {| pathname := Some (str "/v1/messages");
     req_sessionId := JStr (str "s1");
     req_preset := JUndefined;
     body := parsed "{'model':'m1','stream':true,'messages':[{'role':'user','content':'hello'}]}";
     requestStartTime := None;
     logEntry := None |}.

(** The same request after [preHandler] ran at time 1000. *)
Definition captured : FastifyRequest :=
  fst (preHandler default_options 1000
         (str "2026-01-01T00:00:00.000Z") incoming).

(** A request to another route. *)
Definition health_check : FastifyRequest :=
  {| pathname := Some (str "/health");
     req_sessionId := JUndefined;
     req_preset := JUndefined;
     body := JUndefined;
     requestStartTime := None;
     logEntry := None |}.

(** An empty log file that accepts appends. *)
Definition disk : World :=
  {| logFile := []; errorLog := []; appendFailure := None |}.

(** The log entry [preHandler] attached to it. *)
Definition entry : RequestLogEntry :=
  match logEntry captured with
  | Some e => e
  | None =>
      {| timestamp := []; sessionId := JUndefined; preset := JUndefined;
         request := {| request_model := JUndefined;
                       request_max_tokens := JUndefined;
                       request_temperature := JUndefined;
                       request_system := JUndefined;
                       request_messages := [];
                       request_tools := JUndefined;
                       request_stream := JUndefined |};
         response := empty_response; duration_ms := None;
         error := JUndefined |}
  end.

(** Two events of type [message_start] with distinct ids and models. *)
Definition first_start : Ref.rval :=
  parsed "{'type':'message_start','message':{'id':'msg_1','model':'m1'}}".
Definition second_start : Ref.rval :=
  parsed "{'type':'message_start','message':{'id':'msg_2','model':'m2'}}".

(** A stream of two text deltas, [Hi] and [ there], one frame per line,
    delivered in two chunks of which the first ends in the middle of the
    second frame. *)
Definition split_chunks : list jsstring :=
  [ json_text "data: {'type':'content_block_delta','delta':{'text':'Hi'}}"
      ++ [LF]
      ++ json_text "data: {'type':'content_block_delta','del";
    json_text "ta':{'text':' there'}}" ++ [LF] ].

(** The same bytes delivered with the chunk boundary after the first
    line. *)
Definition aligned_chunks : list jsstring :=
  [ json_text "data: {'type':'content_block_delta','delta':{'text':'Hi'}}"
      ++ [LF];
    json_text "data: {'type':'content_block_delta','delta':{'text':' there'}}"
      ++ [LF] ].


(** A stream whose reader fails after the first chunk, with an error
    object as the reason. *)
Definition broken_stream : ReadableStream :=
  {| chunks := [ json_text "data: {'type':'content_block_delta','delta':{'text':'Hi'}}"
                   ++ [LF] ];
     ending_of := Errored (parsed "{'message':'socket hang up'}") |}.

(** The same stream errored without a reason: [controller.error()]. *)
Definition stream_errored_without_reason : ReadableStream :=
  {| chunks := chunks broken_stream; ending_of := Errored JUndefined |}.

(** The two deliveries above as streams that end. *)
Definition split_stream : ReadableStream :=
  {| chunks := split_chunks; ending_of := Closed |}.
Definition aligned_stream : ReadableStream :=
  {| chunks := aligned_chunks; ending_of := Closed |}.

(** Options that cut every message text after three characters. *)
Definition cutting_options : RequestLoggerOptions :=
  {| includeSystemPrompt := true; includeMessages := true;
     includeTools := false; maxMessageLength := 3 |}.

Definition hello_message : Ref.rval :=
  parsed "{'role':'user','content':'hello'}".

(** A text block with an empty text and one more property. *)
Definition empty_text_block : Ref.rval :=
  parsed "{'type':'text','text':'','cache_control':{'type':'ephemeral'}}".

(** A direct payload that signals an error, and one that is a message. *)
Definition error_payload : Ref.rval :=
  parsed "{'type':'error','error':{'type':'overloaded_error','message':'Overloaded'}}".

Definition message_payload : Ref.rval :=
  parsed "{'id':'msg_1','model':'m1','role':'assistant','content':[{'type':'text','text':'Hello'},{'type':'tool_use','id':'t1','name':'search','input':{}},{'type':'text','text':'world'}],'stop_reason':'end_turn','stop_sequence':null,'usage':{'input_tokens':5,'output_tokens':2}}".

Definition message_blocks : list Ref.rval :=
  match get_opt message_payload (str "content") with
  | JArr items => items
  | _ => []
  end.

(** The error object Fastify gives to [onError]. *)
Definition upstream_error : Ref.rval :=
  parsed "{'message':'connect ECONNREFUSED','stack':'Error: connect ECONNREFUSED','code':'ECONNREFUSED'}".

(** A message whose content is two text blocks with empty texts. *)
Definition two_empty_texts_payload : Ref.rval :=
  parsed "{'id':'msg_2','content':[{'type':'text','text':''},{'type':'text','text':''}]}".

(** A log file on a disk that is full. *)
Definition full_disk : World :=
  {| logFile := []; errorLog := [];
     appendFailure := Some (str "ENOSPC: no space left on device") |}.

(** The stream of the example of the specification, one chunk per
    frame. *)
Definition example_stream : ReadableStream :=
  {| chunks :=
       [ json_text "data: {'type':'message_start','message':{'id':'x1','model':'m1'}}" ++ [LF];
         json_text "data: {'type':'content_block_delta','delta':{'text':'Hi'}}" ++ [LF];
         json_text "data: {'type':'content_block_delta','delta':{'text':' there'}}" ++ [LF];
         json_text "data: {'type':'message_delta','delta':{'stop_reason':'end_turn'},'usage':{'input_tokens':5,'output_tokens':2}}" ++ [LF] ];
     ending_of := Closed |}.

(** A request whose [messages] is a string instead of an array. *)
Definition malformed : FastifyRequest :=
  {| pathname := Some (str "/v1/messages");
     req_sessionId := JUndefined;
     req_preset := JUndefined;
     body := parsed "{'model':'m1','messages':'hello'}";
     requestStartTime := None;
     logEntry := None |}.

(** Options that log the tools and cut messages after four characters. *)
Definition full_options : RequestLoggerOptions :=
  {| includeSystemPrompt := true; includeMessages := true;
     includeTools := true; maxMessageLength := 4 |}.

(** A message with one block of each kind, and a request that carries
    it with a system prompt and a tool. *)
Definition mixed_message : Ref.rval :=
  parsed "{'role':'user','name':'n1','content':[{'type':'image','source':{'type':'base64','data':'AAAA'}},{'type':'tool_use','id':'t1','name':'search','input':{'q':'x'}},{'type':'tool_result','tool_use_id':'t1','content':'found'},{'type':'text','text':'hello world','cache_control':{'type':'ephemeral'}},{'type':'thinking','thinking':'hm'}]}".

Definition rich : FastifyRequest :=
  {| pathname := Some (str "/api/v1/messages");
     req_sessionId := JUndefined;
     req_preset := JStr (str "p1");
     body := parsed "{'model':'m1','system':'You are helpful','tools':[{'name':'search','description':'Web search','input_schema':{'type':'object'}}],'messages':[{'role':'user','name':'n1','content':[{'type':'image','source':{'type':'base64','data':'AAAA'}},{'type':'text','text':'hello world'}]},{'role':'assistant','content':'ok'}]}";
     requestStartTime := None;
     logEntry := None |}.

(** Events of a stream: a tool use, two usages, a stop reason, a ping. *)
Definition tool_start : Ref.rval :=
  parsed "{'type':'content_block_start','index':1,'content_block':{'type':'tool_use','id':'t1','name':'search','input':{}}}".
Definition text_start : Ref.rval :=
  parsed "{'type':'content_block_start','index':0,'content_block':{'type':'text','text':''}}".
Definition first_delta : Ref.rval :=
  parsed "{'type':'message_delta','delta':{'stop_reason':'tool_use'},'usage':{'output_tokens':2}}".
Definition second_delta : Ref.rval :=
  parsed "{'type':'message_delta','delta':{},'usage':{'output_tokens':7}}".
Definition ping : Ref.rval := parsed "{'type':'ping'}".

(** A stream of event names, comments and a body that is not JSON. *)
Definition frameless_stream : ReadableStream :=
  {| chunks := [ str "event: ping" ++ [LF] ++ str ": keep-alive" ++ [LF];
                 str "data: [DONE]" ++ [LF] ++ [LF] ];
     ending_of := Closed |}.

(** The parts of [rich] and of [mixed_message] the properties name. *)
Definition list_of (v : Ref.rval) : list Ref.rval :=
  match v with
  | JArr items => items
  | _ => []
  end.

Definition rich_tools : list Ref.rval :=
  list_of (get_opt (body rich) (str "tools")).
Definition rich_messages : list Ref.rval :=
  list_of (get_opt (body rich) (str "messages")).
Definition mixed_blocks : list Ref.rval :=
  list_of (get_opt mixed_message (str "content")).

(** What [mixed_message] is logged as under [full_options]. *)
Definition mixed_logged : Ref.rval :=
  parsed "{'role':'user','content':[{'type':'image','source':'[IMAGE_DATA_OMITTED]'},{'type':'tool_use','name':'search','id':'t1'},{'type':'tool_result','tool_use_id':'t1'},{'type':'text','text':'hell... [truncated, 7 more chars]'},{'type':'thinking','thinking':'hm'}]}".

(** [rich] after [preHandler] ran at time 1000 under [full_options]. *)
Definition rich_captured : FastifyRequest :=
  fst (preHandler full_options 1000 (str "2026-01-01T00:00:00.000Z") rich).

(** A payload whose content holds [null]. *)
Definition holed_payload : Ref.rval :=
  parsed "{'id':'msg_3','content':[{'type':'text','text':'a'},null]}".

End Demo.

(* ================================================================= *)
(** ** Properties *)

Unset Implicit Arguments.

(** *** Strings *)

Lemma streq_refl (a : jsstring) : streq a a = true.
Proof.
  induction a as [|x a IH]; simpl; [reflexivity|].
  now rewrite N.eqb_refl, IH.
Qed.

Lemma streq_eq (a b : jsstring) : streq a b = true -> a = b.
Proof.
  revert b; induction a as [|x a IH]; intros [|y b]; simpl; try discriminate; auto.
  intros H. apply andb_true_iff in H as [Hx Hab].
  apply N.eqb_eq in Hx. f_equal; auto.
Qed.

Lemma read_digits_uint (d : Decimal.uint) (acc : nat) :
  read_digits acc (uint_digits d) = Some (Nat.of_uint_acc d acc).
Proof.
  revert acc; induction d; intros acc;
    cbn [uint_digits read_digits Nat.of_uint_acc];
    try reflexivity;
    match goal with
    | |- context [N.leb 48 ?c && N.leb ?c 57] =>
        change (N.leb 48 c && N.leb c 57) with true; cbv iota
    end;
    rewrite IHd; f_equal; f_equal;
    rewrite Nat.tail_mul_spec;
    match goal with
    | |- context [N.to_nat ?x] =>
        let v := eval vm_compute in (N.to_nat x) in
        change (N.to_nat x) with v
    end;
    lia.
Qed.

Lemma nat_toString_nonempty (n : nat) : nat_toString n <> [].
Proof.
  unfold nat_toString. intros H.
  assert (Hn : Nat.to_uint n = Decimal.Nil)
    by (destruct (Nat.to_uint n); simpl in H; try discriminate; reflexivity).
  pose proof (DecimalNat.Unsigned.of_to n) as Hof. rewrite Hn in Hof. simpl in Hof.
  subst n. discriminate Hn.
Qed.

(** The digits printed for [n] read back as [n]. *)
Lemma read_decimal_nat_toString (n : nat) :
  read_decimal (nat_toString n) = Some n.
Proof.
  unfold read_decimal.
  pose proof (nat_toString_nonempty n) as Hne.
  destruct (nat_toString n) eqn:E; [congruence|].
  rewrite <- E. unfold nat_toString. rewrite read_digits_uint.
  f_equal. apply DecimalNat.Unsigned.of_to.
Qed.

Section SanitizerProperties.
Context {NUM : Numbers} {RT : Runtime}.

Lemma is_str_eq (v : val) (lit : jsstring) :
  is_str v lit = true -> v = JStr lit.
Proof.
  destruct v; simpl; try discriminate.
  intros H. now rewrite (streq_eq _ _ H).
Qed.

Lemma truncate_cases (s : jsstring) (n : nat) :
  truncate s n =
  if (0 <? n) && (n <? length s)
  then firstn n s ++ str "... [truncated, " ++ nat_toString (length s - n)
       ++ str " more chars]"
  else s.
Proof.
  unfold truncate, substring_to, truncated_marker.
  destruct (Nat.eqb_spec n 0) as [->|Hn]; simpl; [reflexivity|].
  destruct (Nat.leb_spec (length s) n) as [Hle|Hlt].
  - replace (0 <? n) with true by (symmetry; apply Nat.ltb_lt; lia).
    replace (n <? length s) with false by (symmetry; apply Nat.ltb_ge; lia).
    reflexivity.
  - replace (0 <? n) with true by (symmetry; apply Nat.ltb_lt; lia).
    replace (n <? length s) with true by (symmetry; apply Nat.ltb_lt; lia).
    reflexivity.
Qed.

(** C5. A message whose [content] is the string [text] of length [L] is
    logged, under [maxMessageLength = N], with the content made of the
    first [N] characters of [text] followed by the marker
    [... [truncated, L-N more chars]] when [N > 0] and [L > N], and with
    [text] itself otherwise (so always when [N = 0]); this is what
    [truncate] returns, and the number in the marker reads back as
    [L - N]. *)
Theorem truncation_of_message_text
    (options : RequestLoggerOptions) (msg role : val) (text : jsstring) :
  get msg (str "role") = Ok role ->
  get msg (str "content") = Ok (JStr text) ->
  let N := maxMessageLength options in
  let L := length text in
  let sanitized :=
    if (0 <? N) && (N <? L)
    then firstn N text ++ str "... [truncated, " ++ nat_toString (L - N)
         ++ str " more chars]"
    else text in
  sanitize_message options msg
    = Ok (JObj [(str "role", role); (str "content", JStr sanitized)])
  /\ truncate text N = sanitized
  /\ read_decimal (nat_toString (L - N)) = Some (L - N).
Proof.
  intros Hrole Hcontent N L sanitized.
  assert (Ht : truncate text N = sanitized) by apply truncate_cases.
  split; [|split; [exact Ht | apply read_decimal_nat_toString]].
  unfold sanitize_message. rewrite Hrole, Hcontent. cbn [bind].
  fold N.
  destruct (0 <? N) eqn:HN; [now rewrite Ht | reflexivity].
Qed.

(** C10. A content block whose [type] is ['text'] and whose [text] is the
    empty string or absent is returned by the sanitizer as it is, extra
    properties included. *)
Theorem empty_text_block_passes_through
    (options : RequestLoggerOptions) (item ty text : val) :
  get item (str "type") = Ok ty ->
  is_str ty (str "text") = true ->
  get item (str "text") = Ok text ->
  text = JStr [] \/ text = JUndefined ->
  sanitize_item options item = Ok item.
Proof.
  intros Hty Htext Hget Hempty.
  unfold sanitize_item. rewrite Hty, Hget. cbn [bind].
  apply is_str_eq in Htext. subst ty.
  destruct Hempty as [-> | ->]; reflexivity.
Qed.

(** By contrast a text block with a non-empty string is rewritten to its
    [type] and [text] alone. *)
Lemma text_block_is_projected
    (options : RequestLoggerOptions) (item ty : val) (c : codeunit) (s : jsstring) :
  get item (str "type") = Ok ty ->
  is_str ty (str "text") = true ->
  get item (str "text") = Ok (JStr (c :: s)) ->
  sanitize_item options item
    = Ok (JObj [(str "type", JStr (str "text"));
                (str "text",
                 JStr (if 0 <? maxMessageLength options
                       then truncate (c :: s) (maxMessageLength options)
                       else c :: s))]).
Proof.
  intros Hty Htext Hget.
  unfold sanitize_item. rewrite Hty, Hget. cbn [bind].
  rewrite Htext. cbn [truthy andb].
  destruct (0 <? maxMessageLength options); reflexivity.
Qed.

End SanitizerProperties.

(** *** The streaming collector *)

Section CollectorProperties.
Context {NUM : Numbers} {RT : Runtime}.

Lemma get_opt_get (v x : val) (k : jsstring) :
  get v k = Ok x -> get_opt v k = x.
Proof. unfold get_opt. now intros ->. Qed.

Lemma get_opt_throw (v : val) (k : jsstring) :
  get v k = Throw -> get_opt v k = JUndefined.
Proof. unfold get_opt. now intros ->. Qed.

(** A property can be read from anything but [undefined] and [null]. *)
Lemma get_of_object (v : val) (k : jsstring) :
  v <> JUndefined -> v <> JNull -> get v k = Ok (get_opt v k).
Proof.
  intros Hu Hn. unfold get_opt.
  destruct v; try congruence; cbn; try reflexivity.
  now destruct (own k fields).
Qed.

(** What each statement does to the accumulated text. *)

Lemma fullText_message_start (ty data : val) (c : Collector) :
  fullText (capture_message_start ty data c) = fullText c.
Proof. unfold capture_message_start. now destruct (is_str ty _). Qed.

Lemma fullText_message_delta (ty data : val) (c : Collector) :
  fullText (capture_message_delta ty data c) = fullText c.
Proof. unfold capture_message_delta. now destruct (is_str ty _). Qed.

Lemma fullText_tool_use (ty data : val) (c c' : Collector) :
  capture_tool_use ty data c = Ok c' -> fullText c' = fullText c.
Proof.
  unfold capture_tool_use.
  destruct (_ && _).
  - destruct (push_content _ _); cbn [bind]; [|discriminate].
    now intros [= <-].
  - now intros [= <-].
Qed.

Lemma fullText_on_data (data : val) (c : Collector) :
  fullText (on_data data c) = fullText c ++ text_delta data.
Proof.
  unfold on_data, text_delta.
  destruct (get data (str "type")) as [ty|] eqn:Hty.
  2:{ rewrite (get_opt_throw _ _ Hty). cbn [is_str]. now rewrite app_nil_r. }
  rewrite (get_opt_get _ _ _ Hty).
  set (c1 := capture_message_start ty data c).
  assert (H1 : fullText c1 = fullText c) by apply fullText_message_start.
  unfold capture_text.
  destruct (is_str ty (str "content_block_delta")); cbn [andb].
  - destruct (truthy _).
    + destruct (toString _) as [t|]; cbn [bind].
      * destruct (capture_tool_use _ _ _) as [c3|] eqn:H3.
        -- rewrite fullText_message_delta, (fullText_tool_use _ _ _ _ H3).
           cbn [fullText]. now rewrite H1.
        -- cbn [fullText]. now rewrite H1.
      * now rewrite H1, app_nil_r.
    + destruct (capture_tool_use _ _ _) as [c3|] eqn:H3.
      * rewrite fullText_message_delta, (fullText_tool_use _ _ _ _ H3).
        now rewrite H1, app_nil_r.
      * now rewrite H1, app_nil_r.
  - destruct (capture_tool_use _ _ _) as [c3|] eqn:H3.
    + rewrite fullText_message_delta, (fullText_tool_use _ _ _ _ H3).
      now rewrite H1, app_nil_r.
    + now rewrite H1, app_nil_r.
Qed.

(** What each statement does to the captured id and model. *)

Lemma id_model_text (ty data : val) (c c' : Collector) :
  capture_text ty data c = Ok c' ->
  messageId c' = messageId c /\ model c' = model c.
Proof.
  unfold capture_text.
  destruct (_ && _).
  - destruct (toString _); cbn [bind]; [|discriminate].
    now intros [= <-].
  - now intros [= <-].
Qed.

Lemma id_model_tool_use (ty data : val) (c c' : Collector) :
  capture_tool_use ty data c = Ok c' ->
  messageId c' = messageId c /\ model c' = model c.
Proof.
  unfold capture_tool_use.
  destruct (_ && _).
  - destruct (push_content _ _); cbn [bind]; [|discriminate].
    now intros [= <-].
  - now intros [= <-].
Qed.

Lemma id_model_message_delta (ty data : val) (c : Collector) :
  messageId (capture_message_delta ty data c) = messageId c
  /\ model (capture_message_delta ty data c) = model c.
Proof. unfold capture_message_delta. now destruct (is_str ty _). Qed.

Lemma id_model_on_data (data : val) (c : Collector) :
  let message := get_opt data (str "message") in
  messageId (on_data data c)
    = (if is_message_start data then get_opt message (str "id") else messageId c)
  /\ model (on_data data c)
    = (if is_message_start data then get_opt message (str "model") else model c).
Proof.
  unfold on_data, is_message_start.
  destruct (get data (str "type")) as [ty|] eqn:Hty.
  2:{ rewrite !(get_opt_throw _ _ Hty). cbn [is_str]. now split. }
  rewrite (get_opt_get _ _ _ Hty). cbv zeta.
  set (c1 := capture_message_start ty data c).
  assert (H1 : messageId c1
               = (if is_str ty (str "message_start")
                  then get_opt (get_opt data (str "message")) (str "id")
                  else messageId c)
               /\ model c1
               = (if is_str ty (str "message_start")
                  then get_opt (get_opt data (str "message")) (str "model")
                  else model c)).
  { subst c1. unfold capture_message_start.
    now destruct (is_str ty (str "message_start")). }
  destruct (capture_text ty data c1) as [c2|] eqn:H2; [|exact H1].
  destruct (id_model_text _ _ _ _ H2) as [Hi2 Hm2].
  destruct (capture_tool_use ty data c2) as [c3|] eqn:H3.
  - destruct (id_model_tool_use _ _ _ _ H3) as [Hi3 Hm3].
    destruct (id_model_message_delta ty data c3) as [Hi4 Hm4].
    rewrite Hi4, Hm4, Hi3, Hm3, Hi2, Hm2. exact H1.
  - rewrite Hi2, Hm2. exact H1.
Qed.

(** *** Lines and chunks *)

Lemma fullText_on_line (c : Collector) (line : jsstring) :
  fullText (on_line c line) = fullText c ++ frame_text line.
Proof.
  unfold on_line, frame_text.
  destruct (startsWith _ line); [|now rewrite app_nil_r].
  destruct (JSON_parse _); [apply fullText_on_data | now rewrite app_nil_r].
Qed.

Lemma fullText_lines (lines : list jsstring) (c : Collector) :
  fullText (fold_left on_line lines c)
    = fullText c ++ concat (map frame_text lines).
Proof.
  revert c; induction lines as [|l lines IH]; intros c; simpl.
  - now rewrite app_nil_r.
  - now rewrite IH, fullText_on_line, app_assoc.
Qed.

Lemma split_lines_nonempty (s : jsstring) : split_lines s <> [].
Proof.
  destruct s as [|c s]; simpl; [discriminate|].
  destruct (N.eqb c LF); [discriminate|].
  destruct (split_lines s); discriminate.
Qed.

(** A line feed separates the lines before it from the lines after it. *)
Lemma split_lines_app_LF (a b : jsstring) :
  split_lines (a ++ LF :: b) = split_lines a ++ split_lines b.
Proof.
  induction a as [|c a IH]; simpl.
  - reflexivity.
  - destruct (N.eqb c LF).
    + now rewrite IH.
    + rewrite IH.
      pose proof (split_lines_nonempty a) as Hne.
      destruct (split_lines a); [congruence | reflexivity].
Qed.

Lemma endsWith_LF (c : jsstring) :
  endsWith [LF] c = true -> exists a, c = a ++ [LF].
Proof.
  unfold endsWith. change (rev [LF]) with [LF].
  destruct (rev c) as [|x r] eqn:Hrev; cbn [startsWith]; [discriminate|].
  rewrite andb_true_r. intros Hx. apply N.eqb_eq in Hx. subst x.
  exists (rev r). rewrite <- (rev_involutive c), Hrev. reflexivity.
Qed.

Lemma frame_text_empty : frame_text [] = [].
Proof. reflexivity. Qed.

Lemma stream_text_app_LF (a b : jsstring) :
  stream_text (a ++ LF :: b) = stream_text a ++ stream_text b.
Proof.
  unfold stream_text. now rewrite split_lines_app_LF, map_app, concat_app.
Qed.

(** Reading line-aligned chunks accumulates the text deltas of the whole
    stream. *)
Lemma fullText_read_chunks (cs : list jsstring) (c : Collector) :
  line_aligned cs = true ->
  fullText (read_chunks c cs) = fullText c ++ stream_text (concat cs).
Proof.
  revert c; induction cs as [|chunk rest IH]; intros c Hal.
  - cbn. now rewrite app_nil_r.
  - cbn [read_chunks fold_left concat].
    destruct rest as [|next rest'].
    + cbn [fold_left concat]. rewrite app_nil_r.
      unfold on_chunk. now rewrite fullText_lines.
    + assert (Hal' : (match chunk with [] => true | _ => endsWith [LF] chunk end)
                     && line_aligned (next :: rest') = true) by exact Hal.
      apply andb_true_iff in Hal' as [Hend Hrest].
      fold (read_chunks (on_chunk c chunk) (next :: rest')).
      rewrite (IH _ Hrest).
      destruct chunk as [|x chunk'].
      * reflexivity.
      * destruct (endsWith_LF _ Hend) as [a Ha]. rewrite Ha.
        unfold on_chunk. rewrite fullText_lines.
        replace ((a ++ [LF]) ++ concat (next :: rest'))
          with (a ++ LF :: concat (next :: rest'))
          by (now rewrite <- app_assoc).
        rewrite stream_text_app_LF.
        change (a ++ [LF]) with (a ++ LF :: []).
        rewrite split_lines_app_LF, map_app, concat_app.
        change (concat (map frame_text (split_lines []))) with (@nil codeunit).
        fold (stream_text a).
        now rewrite app_nil_r, !app_assoc.
Qed.

Lemma fullText_finalize (c : Collector) :
  response_fullText (response (finalize c)) = Some (fullText c).
Proof. reflexivity. Qed.

Lemma entry_of_collect (e : RequestLogEntry) (s : ReadableStream) (w : World) :
  ending_of s = Closed ->
  fst (collect e s w) = finalize (read_chunks (start_collector e) (chunks s)).
Proof.
  intros Hend. unfold collect. rewrite Hend.
  now destruct (appendFile w _).
Qed.

(** C2, amended. When the stream ends and no line is cut by a chunk
    boundary (every chunk but the last is empty or ends with a line
    feed), the [fullText] of the record is the concatenation, in order,
    of the text deltas of the [content_block_delta] frames of the whole
    stream, whatever valid and malformed frames it interleaves. *)
Theorem fullText_of_line_aligned_stream
    (e : RequestLogEntry) (s : ReadableStream) (w : World) :
  ending_of s = Closed ->
  line_aligned (chunks s) = true ->
  response_fullText (response (fst (collect e s w)))
    = Some (stream_text (concat (chunks s))).
Proof.
  intros Hend Hal.
  rewrite (entry_of_collect e s w Hend), fullText_finalize.
  now rewrite (fullText_read_chunks _ _ Hal).
Qed.

Lemma onSend_stream_returns
    (now : Z) (req : FastifyRequest) (w : World) (s : ReadableStream) :
  run_result (onSend now req w (PStream s)) = Ok (PStream s).
Proof.
  unfold onSend. destruct (logEntry req); [|reflexivity].
  unfold tee. now destruct (collect _ s w).
Qed.


Lemma id_model_finalize (c : Collector) :
  response_id (response (finalize c)) = messageId c
  /\ response_model (response (finalize c)) = model c.
Proof. now split. Qed.

(** C6, amended. Every [message_start] event overwrites the id and the
    model: after a sequence of events they are those of the last
    [message_start] event of the sequence (as they were before it when
    there is none), and these are the id and model of the summary. *)
Theorem message_start_last_wins (events : list val) (c : Collector) :
  let final := fold_left (fun c' data => on_data data c') events c in
  messageId final
    = match last_message_start events with
      | Some m => get_opt (get_opt m (str "message")) (str "id")
      | None => messageId c
      end
  /\ model final
    = match last_message_start events with
      | Some m => get_opt (get_opt m (str "message")) (str "model")
      | None => model c
      end
  /\ response_id (response (finalize final)) = messageId final
  /\ response_model (response (finalize final)) = model final.
Proof.
  cbv zeta.
  assert (H : forall evs c0,
             messageId (fold_left (fun c' data => on_data data c') evs c0)
               = match last_message_start evs with
                 | Some m => get_opt (get_opt m (str "message")) (str "id")
                 | None => messageId c0
                 end
             /\ model (fold_left (fun c' data => on_data data c') evs c0)
               = match last_message_start evs with
                 | Some m => get_opt (get_opt m (str "message")) (str "model")
                 | None => model c0
                 end).
  { induction evs as [|d evs IH]; intros c0; [now split|].
    cbn [fold_left last_message_start].
    destruct (IH (on_data d c0)) as [Hid Hmodel].
    rewrite Hid, Hmodel.
    destruct (last_message_start evs); [now split|].
    destruct (id_model_on_data d c0) as [Hi Hm].
    rewrite Hi, Hm. now destruct (is_message_start d). }
  destruct (H events c) as [Hid Hmodel].
  repeat split; assumption.
Qed.

End CollectorProperties.

(** *** The hooks *)

Section HookProperties.
Context {NUM : Numbers} {RT : Runtime}.

(** C8. On a request whose path is not the message endpoint (and which,
    as Fastify creates it, has no log entry), [preHandler] leaves the
    request as it is, and [onSend] and [onError] then leave the request
    and the world as they are, [onSend] returning its payload. *)
Theorem other_routes_are_untouched
    (options : RequestLoggerOptions) (now now1 now2 : Z) (iso : jsstring)
    (req : FastifyRequest) (w : World) (p : payload) (err : val) :
  targets_endpoint req = false ->
  logEntry req = None ->
  preHandler options now iso req = (req, Ok tt)
  /\ onSend now1 req w p
     = {| run_request := req; run_world := w; run_result := Ok p |}
  /\ onError now2 req w err
     = {| run_request := req; run_world := w; run_result := Ok tt |}.
Proof.
  intros Hpath Hentry. repeat split.
  - unfold preHandler. now rewrite Hpath.
  - unfold onSend. now rewrite Hentry.
  - unfold onError. now rewrite Hentry.
Qed.

Lemma map_result_ok {A B} (f : A -> result B) (g : A -> B) (xs : list A) :
  Forall (fun x => f x = Ok (g x)) xs -> map_result f xs = Ok (map g xs).
Proof.
  induction 1 as [|x xs Hx _ IH]; [reflexivity|].
  cbn [map_result map]. now rewrite Hx, IH.
Qed.

Lemma filter_result_ok {A} (f : A -> result bool) (g : A -> bool) (xs : list A) :
  Forall (fun x => f x = Ok (g x)) xs -> filter_result f xs = Ok (filter g xs).
Proof.
  induction 1 as [|x xs Hx _ IH]; [reflexivity|].
  cbn [filter_result filter]. now rewrite Hx, IH.
Qed.

Lemma block_texts_filter (items : list val) :
  block_texts items = map block_piece (filter is_text_block items).
Proof.
  induction items as [|item items IH]; [reflexivity|].
  cbn [block_texts filter]. unfold is_text_block at 1.
  destruct (is_str _ _); [|exact IH].
  cbn [map]. unfold block_piece at 1.
  destruct (get_opt item (str "text")); now rewrite IH.
Qed.

Lemma is_block_get (item : val) (k : jsstring) :
  is_block item = true -> get item k = Ok (get_opt item k).
Proof.
  destruct item; try discriminate. intros _.
  unfold get_opt, get. now destruct (own k fields).
Qed.

Lemma is_block_piece (item : val) :
  is_block item = true -> is_text_block item = true ->
  join_piece (get_opt item (str "text")) = Ok (block_piece item).
Proof.
  unfold is_text_block, block_piece.
  destruct item; try discriminate.
  unfold is_block. intros Hb Ht. rewrite Ht in Hb.
  unfold get_opt at 1 2, get.
  destruct (own (str "text") fields) as [[]|]; try discriminate; reflexivity.
Qed.

(** On blocks, [textContent] is the [text] fields of the text-typed
    blocks joined by line feeds. *)
Lemma textContent_blocks (items : list val) :
  Forall (fun b => is_block b = true) items ->
  textContent items = Ok (join [LF] (block_texts items)).
Proof.
  intros Hall. unfold textContent.
  rewrite (filter_result_ok _ is_text_block).
  2:{ eapply Forall_impl; [|exact Hall]. intros item Hb.
      cbv beta. rewrite (is_block_get _ (str "type") Hb). reflexivity. }
  cbn [bind].
  assert (Hkept : Forall (fun b => is_block b = true /\ is_text_block b = true)
                    (filter is_text_block items)).
  { apply Forall_forall. intros b Hin. apply filter_In in Hin as [Hin Ht].
    split; [|exact Ht]. rewrite Forall_forall in Hall. now apply Hall. }
  rewrite (map_result_ok (fun item : val => get item (str "text"))
             (fun item : val => get_opt item (str "text"))).
  2:{ eapply Forall_impl; [|exact Hkept]. intros item [Hb _].
      now apply is_block_get. }
  cbn [bind].
  rewrite (map_result_ok join_piece
             (fun t : val => match t with JStr s => s | _ => [] end)).
  2:{ apply Forall_map. eapply Forall_impl; [|exact Hkept].
      intros item [Hb Ht]. now apply is_block_piece. }
  cbn [bind]. rewrite map_map. now rewrite block_texts_filter.
Qed.

(** [onSend] on a payload that is not a stream. *)

Lemma onSend_direct_entry
    (now : Z) (req : FastifyRequest) (w : World) (v : val) (e : RequestLogEntry) :
  logEntry req = Some e ->
  typeof_object v = true ->
  logEntry (run_request (onSend now req w (PValue v)))
    = Some (fst (summarize v (set_duration_ms e (elapsed now req)))).
Proof.
  intros He Hobj. unfold onSend. rewrite He, Hobj.
  destruct (summarize v _) as [e1 [[]|]]; [|reflexivity].
  now destruct (appendFile w e1).
Qed.

Lemma onSend_direct_appends
    (now : Z) (req : FastifyRequest) (w : World) (v : val) (e : RequestLogEntry) :
  logEntry req = Some e ->
  typeof_object v = true ->
  snd (summarize v (set_duration_ms e (elapsed now req))) = Ok tt ->
  appendFailure w = None ->
  logFile (run_world (onSend now req w (PValue v)))
    = logFile w ++ [fst (summarize v (set_duration_ms e (elapsed now req)))]
  /\ run_result (onSend now req w (PValue v)) = Ok (PValue v).
Proof.
  intros He Hobj Hdone Hdisk. unfold onSend. rewrite He, Hobj.
  destruct (summarize v _) as [e1 r]. cbn [snd fst] in *. subst r.
  unfold appendFile. rewrite Hdisk. now split.
Qed.

Lemma summarize_error (v err : val) (e : RequestLogEntry) :
  get v (str "error") = Ok err ->
  truthy err = true ->
  summarize v e
    = (set_error e (JObj [(str "type", get_opt err (str "type"));
                          (str "message", get_opt err (str "message"))]),
       Ok tt).
Proof. intros Herr Ht. unfold summarize. now rewrite Herr, Ht. Qed.

Lemma summarize_fields (v err : val) (e : RequestLogEntry) :
  get v (str "error") = Ok err ->
  truthy err = false ->
  let e1 := fst (summarize v e) in
  error e1 = error e
  /\ response_id (response e1) = get_opt v (str "id")
  /\ response_model (response e1) = get_opt v (str "model")
  /\ response_role (response e1) = get_opt v (str "role")
  /\ response_content (response e1) = get_opt v (str "content")
  /\ response_stop_reason (response e1) = get_opt v (str "stop_reason")
  /\ response_stop_sequence (response e1) = get_opt v (str "stop_sequence")
  /\ response_usage (response e1) = get_opt v (str "usage").
Proof.
  intros Herr Hf. unfold summarize. rewrite Herr, Hf.
  destruct (get_opt v (str "content")); try (cbn; repeat split; reflexivity).
  destruct (textContent items) as [[|c t]|]; cbn; repeat split; reflexivity.
Qed.

(** C7. For a payload that is an object with a truthy [error], the
    entry gets [error = {type, message}] read from [payload.error], its
    response summary stays as it was, and that entry is the one
    appended; with no truthy [error], the summary fields are those of
    the payload. Either way nothing depends on the parser of the
    streaming path. *)
Theorem direct_payload_error_or_summary
    (now : Z) (req : FastifyRequest) (w : World) (v err : val)
    (e : RequestLogEntry) :
  logEntry req = Some e ->
  typeof_object v = true ->
  get v (str "error") = Ok err ->
  let run := onSend now req w (PValue v) in
  exists e',
    logEntry (run_request run) = Some e'
    /\ (truthy err = true ->
        error e' = JObj [(str "type", get_opt err (str "type"));
                         (str "message", get_opt err (str "message"))]
        /\ response e' = response e
        /\ (appendFailure w = None ->
            logFile (run_world run) = logFile w ++ [e']
            /\ run_result run = Ok (PValue v)))
    /\ (truthy err = false ->
        error e' = error e
        /\ response_id (response e') = get_opt v (str "id")
        /\ response_model (response e') = get_opt v (str "model")
        /\ response_role (response e') = get_opt v (str "role")
        /\ response_content (response e') = get_opt v (str "content")
        /\ response_stop_reason (response e') = get_opt v (str "stop_reason")
        /\ response_stop_sequence (response e')
           = get_opt v (str "stop_sequence")
        /\ response_usage (response e') = get_opt v (str "usage"))
    /\ (forall RT' : Runtime, @onSend NUM RT' now req w (PValue v) = run).
Proof.
  intros He Hobj Herr run.
  set (e0 := set_duration_ms e (elapsed now req)).
  exists (fst (summarize v e0)).
  split; [now apply onSend_direct_entry|].
  split; [|split].
  - intros Ht. rewrite (summarize_error v err e0 Herr Ht). cbn [fst].
    split; [reflexivity|split; [reflexivity|]].
    intros Hdisk.
    pose proof (onSend_direct_appends now req w v e He Hobj) as Happ.
    fold e0 in Happ. rewrite (summarize_error v err e0 Herr Ht) in Happ.
    now apply Happ.
  - intros Hf. exact (summarize_fields v err e0 Herr Hf).
  - intros RT'. unfold run, onSend. rewrite He, Hobj. reflexivity.
Qed.

(** The texts of any array, as the plugin extracts them. *)

Lemma join_is_empty (sep : jsstring) (parts : list jsstring) :
  sep <> [] ->
  (join sep parts = [] <-> parts = [] \/ parts = [[]]).
Proof.
  intros Hsep. split.
  - destruct parts as [|p [|q rest]]; cbn [join].
    + now left.
    + intros ->. now right.
    + intros H. apply app_eq_nil in H as [_ H].
      apply app_eq_nil in H as [H _]. contradiction.
  - intros [-> | ->]; reflexivity.
Qed.

Lemma text_of_piece (item : val) (t : jsstring) :
  text_of item = Some t -> join_piece (get_opt item (str "text")) = Ok t.
Proof.
  unfold text_of, join_piece.
  destruct (get_opt item (str "text")) as [| |b|n|x|l|fs];
    try (now intros [= <-]);
    destruct (toString _) as [x'|]; try discriminate; now intros [= <-].
Qed.

Lemma texts_of_items (items : list val) (texts : list jsstring) :
  texts_of items = Some texts ->
  Forall (fun item => item <> JUndefined /\ item <> JNull) items
  /\ Forall2 (fun item t => text_of item = Some t)
       (filter is_text_block items) texts.
Proof.
  revert texts; induction items as [|item items IH]; intros texts.
  - intros [= <-]. split; constructor.
  - assert (Hrest :
      item <> JUndefined -> item <> JNull ->
      (if is_text_block item
       then match text_of item, texts_of items with
            | Some t, Some ts => Some (t :: ts)
            | _, _ => None
            end
       else texts_of items) = Some texts ->
      Forall (fun item => item <> JUndefined /\ item <> JNull) (item :: items)
      /\ Forall2 (fun item t => text_of item = Some t)
           (filter is_text_block (item :: items)) texts).
    { intros Hu Hn H. cbn [filter].
      destruct (is_text_block item).
      - destruct (text_of item) as [t|] eqn:Ht; [|discriminate].
        destruct (texts_of items) as [ts|]; [|discriminate].
        injection H as <-. destruct (IH ts eq_refl) as [Hall Htexts].
        split; constructor; auto.
      - destruct (IH texts H) as [Hall Htexts].
        split; [constructor; auto | exact Htexts]. }
    destruct item; cbn [texts_of]; try discriminate;
      intros H; apply Hrest; try discriminate; exact H.
Qed.

Lemma textContent_texts (items : list val) (texts : list jsstring) :
  texts_of items = Some texts ->
  textContent items = Ok (join [LF] texts).
Proof.
  intros H. destruct (texts_of_items items texts H) as [Hall Htexts].
  unfold textContent.
  rewrite (filter_result_ok _ is_text_block).
  2:{ eapply Forall_impl; [|exact Hall]. intros item [Hu Hn].
      cbv beta. rewrite (get_of_object item (str "type") Hu Hn). reflexivity. }
  cbn [bind].
  rewrite (map_result_ok (fun item : val => get item (str "text"))
             (fun item : val => get_opt item (str "text"))).
  2:{ apply Forall_forall. intros item Hin. apply filter_In in Hin as [Hin _].
      rewrite Forall_forall in Hall. destruct (Hall item Hin) as [Hu Hn].
      now apply get_of_object. }
  cbn [bind].
  assert (Hpieces : forall kept ts,
    Forall2 (fun item t => text_of item = Some t) kept ts ->
    map_result join_piece
      (map (fun item : val => get_opt item (str "text")) kept) = Ok ts).
  { induction 1 as [|item t kept ts Ht _ IH]; [reflexivity|].
    cbn [map map_result]. rewrite (text_of_piece item t Ht), IH. reflexivity. }
  rewrite (Hpieces _ _ Htexts). reflexivity.
Qed.

(** On content blocks the texts are the [text] fields as they are. *)
Lemma texts_of_blocks (items : list val) :
  Forall (fun b => is_block b = true) items ->
  texts_of items = Some (block_texts items).
Proof.
  induction 1 as [|item items Hb _ IH]; [reflexivity|].
  destruct item; try discriminate.
  cbn [texts_of block_texts]. unfold is_text_block.
  destruct (is_str _ _) eqn:Ht; [|exact IH].
  rewrite IH. unfold is_block in Hb. rewrite Ht in Hb.
  unfold text_of, get_opt, get.
  destruct (own (str "text") fields) as [[]|]; try discriminate; reflexivity.
Qed.

(** C9, amended. For a payload with no truthy [error] whose [content] is
    an array of any values, none of them [undefined] or [null] and the
    texts of its text-typed items printable, the entry (whose [fullText]
    was not set before) gets as [fullText] the texts of the text-typed
    items, in order, joined by line feeds, and no [fullText] when that
    joined string is empty, which is the case exactly when there is no
    text-typed item or a single one whose text is empty: two text-typed
    items or more always give a [fullText], even if all their texts are
    empty. That entry is the one appended. *)
Theorem direct_fullText_joins_texts
    (now : Z) (req : FastifyRequest) (w : World) (v err : val)
    (items : list val) (texts : list jsstring) (e : RequestLogEntry) :
  logEntry req = Some e ->
  response_fullText (response e) = None ->
  get v (str "error") = Ok err ->
  truthy err = false ->
  get v (str "content") = Ok (JArr items) ->
  texts_of items = Some texts ->
  let run := onSend now req w (PValue v) in
  exists e',
    logEntry (run_request run) = Some e'
    /\ response_fullText (response e')
       = match join [LF] texts with
         | [] => None
         | joined => Some joined
         end
    /\ (response_fullText (response e') = None
        <-> texts = [] \/ texts = [[]])
    /\ (2 <= length texts ->
        response_fullText (response e') = Some (join [LF] texts))
    /\ (appendFailure w = None ->
        logFile (run_world run) = logFile w ++ [e']
        /\ run_result run = Ok (PValue v)).
Proof.
  intros He Hnone Herr Hf Hcontent Htexts run.
  assert (Hobj : typeof_object v = true).
  { destruct v; try reflexivity; cbn in Hcontent; discriminate. }
  set (e0 := set_duration_ms e (elapsed now req)).
  assert (Hsum : snd (summarize v e0) = Ok tt
                 /\ response_fullText (response (fst (summarize v e0)))
                    = match join [LF] texts with
                      | [] => None
                      | joined => Some joined
                      end).
  { unfold summarize. rewrite Herr, Hf.
    rewrite (get_opt_get _ _ _ Hcontent).
    rewrite (textContent_texts items texts Htexts).
    destruct (join [LF] texts); cbn; now split. }
  destruct Hsum as [Hdone Htext].
  assert (Hsep : [LF] <> []) by discriminate.
  pose proof (join_is_empty [LF] texts Hsep) as Hempty.
  exists (fst (summarize v e0)).
  split; [now apply onSend_direct_entry|].
  split; [exact Htext|].
  split; [|split].
  - rewrite Htext, <- Hempty.
    destruct (join [LF] texts); split; intros H; try reflexivity;
      try discriminate H.
  - intros Hlen. rewrite Htext.
    destruct (join [LF] texts) eqn:Hj; [|reflexivity].
    destruct (proj1 (join_is_empty [LF] texts Hsep) Hj) as [-> | ->];
      cbn in Hlen; lia.
  - intros Hdisk. now apply onSend_direct_appends.
Qed.

(** The measured duration survives everything that happens to the
    entry afterwards. *)

Lemma duration_summarize (v : val) (e : RequestLogEntry) :
  duration_ms (fst (summarize v e)) = duration_ms e.
Proof.
  unfold summarize.
  destruct (get v (str "error")) as [err|]; [|reflexivity].
  destruct (truthy err); [reflexivity|].
  destruct (get_opt v (str "content")); try reflexivity.
  now destruct (textContent items) as [[|c t]|].
Qed.

Lemma duration_on_data (data : val) (c : Collector) :
  duration_ms (entry (on_data data c)) = duration_ms (entry c).
Proof.
  unfold on_data.
  destruct (get data (str "type")) as [ty|]; [|reflexivity].
  assert (H1 : entry (capture_message_start ty data c) = entry c).
  { unfold capture_message_start. now destruct (is_str ty _). }
  set (c1 := capture_message_start ty data c) in *.
  assert (H2 : forall c2, capture_text ty data c1 = Ok c2 -> entry c2 = entry c1).
  { intros c2. unfold capture_text. destruct (_ && _).
    - destruct (toString _); cbn [bind]; [|discriminate]. now intros [= <-].
    - now intros [= <-]. }
  assert (H3 : forall c2 c3, capture_tool_use ty data c2 = Ok c3 ->
                             duration_ms (entry c3) = duration_ms (entry c2)).
  { intros c2 c3. unfold capture_tool_use. destruct (_ && _).
    - unfold push_content.
      destruct (or_else _ _); cbn [bind]; try discriminate.
      now intros [= <-].
    - now intros [= <-]. }
  assert (H4 : forall c3, entry (capture_message_delta ty data c3) = entry c3).
  { intros c3. unfold capture_message_delta. now destruct (is_str ty _). }
  destruct (capture_text ty data c1) as [c2|] eqn:E2; [|now rewrite H1].
  specialize (H2 c2 eq_refl).
  destruct (capture_tool_use ty data c2) as [c3|] eqn:E3.
  - now rewrite H4, (H3 _ _ E3), H2, H1.
  - now rewrite H2, H1.
Qed.

Lemma duration_read_chunks (cs : list jsstring) (c : Collector) :
  duration_ms (entry (read_chunks c cs)) = duration_ms (entry c).
Proof.
  assert (Hline : forall line c0,
             duration_ms (entry (on_line c0 line)) = duration_ms (entry c0)).
  { intros line c0. unfold on_line.
    destruct (startsWith _ line); [|reflexivity].
    destruct (JSON_parse _); [apply duration_on_data | reflexivity]. }
  assert (Hlines : forall lines c0,
             duration_ms (entry (fold_left on_line lines c0))
             = duration_ms (entry c0)).
  { induction lines as [|l lines IH]; intros c0; [reflexivity|].
    cbn [fold_left]. now rewrite IH, Hline. }
  revert c; induction cs as [|chunk cs IH]; intros c; [reflexivity|].
  cbn [read_chunks fold_left]. fold (read_chunks (on_chunk c chunk) cs).
  rewrite IH. apply Hlines.
Qed.

Lemma onSend_stream_closed
    (now : Z) (req : FastifyRequest) (w : World) (s : ReadableStream)
    (e : RequestLogEntry) :
  logEntry req = Some e ->
  appendFailure w = None ->
  ending_of s = Closed ->
  let e' := finalize (read_chunks
                        (start_collector (set_duration_ms e (elapsed now req)))
                        (chunks s)) in
  logFile (run_world (onSend now req w (PStream s))) = logFile w ++ [e']
  /\ logEntry (run_request (onSend now req w (PStream s))) = Some e'.
Proof.
  intros He Hdisk Hend e'. unfold onSend. rewrite He. unfold tee, collect.
  rewrite Hend. unfold appendFile. rewrite Hdisk. now split.
Qed.

Lemma onSend_stream_errored
    (now : Z) (req : FastifyRequest) (w : World) (s : ReadableStream)
    (e : RequestLogEntry) (reason : val) :
  logEntry req = Some e ->
  ending_of s = Errored reason ->
  run_world (onSend now req w (PStream s))
  = match report_failure w reason with
    | Ok w' => w'
    | Throw => w
    end.
Proof.
  intros He Hend. unfold onSend. rewrite He. unfold tee, collect.
  now rewrite Hend.
Qed.

(** Whatever the request, the payload, the error and the disk, one run
    of a hook appends at most one record. *)
Lemma hooks_append_at_most_once
    (now : Z) (req : FastifyRequest) (w : World) (p : payload) (err : val) :
  length (logFile (run_world (onSend now req w p))) <= length (logFile w) + 1
  /\ length (logFile (run_world (onError now req w err)))
     <= length (logFile w) + 1.
Proof.
  split.
  - unfold onSend. destruct (logEntry req) as [e|]; [|cbn; lia].
    destruct p as [s|v].
    + unfold tee, collect.
      destruct (ending_of s) as [|reason].
      * unfold appendFile. destruct (appendFailure w); cbn; [lia|].
        rewrite length_app. cbn. lia.
      * unfold report_failure.
        destruct (get reason _) as [message|]; cbn [bind]; [|cbn; lia].
        destruct (toString message); cbn; lia.
    + destruct (typeof_object v); [|cbn; lia].
      destruct (summarize v _) as [e1 [[]|]]; [|cbn; lia].
      unfold appendFile. destruct (appendFailure w); cbn; [lia|].
      rewrite length_app. cbn. lia.
  - unfold onError. destruct (logEntry req) as [e|]; [|cbn; lia].
    destruct (bind _ _); [|cbn; lia].
    unfold appendFile. destruct (appendFailure w); cbn; [lia|].
    rewrite length_app. cbn. lia.
Qed.

(** [onError] on an error object, with a disk that takes the record. *)
Lemma onError_appends
    (now : Z) (req : FastifyRequest) (w : World) (e : RequestLogEntry)
    (err : val) :
  logEntry req = Some e ->
  appendFailure w = None ->
  err <> JUndefined -> err <> JNull ->
  exists e',
    logFile (run_world (onError now req w err)) = logFile w ++ [e']
    /\ logEntry (run_request (onError now req w err)) = Some e'
    /\ duration_ms e' = Some (elapsed now req).
Proof.
  intros He Hdisk Hu Hn. unfold onError. rewrite He.
  rewrite !(get_of_object err _ Hu Hn). cbn [bind].
  unfold appendFile. rewrite Hdisk.
  eexists. cbn [run_world run_request logFile logEntry set_logEntry].
  repeat split.
Qed.

(** C1, amended. For a request that has a log entry, and while
    [appendFile] succeeds, the run of the hook that finishes the request
    appends exactly one record, the final entry with its duration, when
    it is [onSend] with a direct payload that is an object carrying a
    truthy [error] or carrying blocks as [content] (if [content] is an
    array), [onSend] with a stream that ends (whatever its frames, valid
    or not), or [onError] with an error object. When reading the stream
    fails, no record is appended; the failure is caught and adds one line
    to the error log, made of the [message] of the reason the read was
    rejected with, unless that reason is [undefined] or [null] or its
    message cannot be printed: then the handler itself throws, no line
    is logged and the background task is rejected with nobody to handle
    it. No run of a hook appends more than one record, but a run does
    not look for a record already written: when [onError] runs on a
    request after [onSend] has appended its record, the request has two
    records. *)
Theorem one_record_per_finishing_run
    (now : Z) (req : FastifyRequest) (w : World) (e : RequestLogEntry) :
  logEntry req = Some e ->
  appendFailure w = None ->
  (forall v err,
      typeof_object v = true ->
      get v (str "error") = Ok err ->
      (truthy err = true
       \/ forall items, get_opt v (str "content") = JArr items ->
                        Forall (fun b => is_block b = true) items) ->
      exists e',
        logFile (run_world (onSend now req w (PValue v))) = logFile w ++ [e']
        /\ logEntry (run_request (onSend now req w (PValue v))) = Some e'
        /\ duration_ms e' = Some (elapsed now req))
  /\ (forall s,
      ending_of s = Closed ->
      exists e',
        logFile (run_world (onSend now req w (PStream s))) = logFile w ++ [e']
        /\ logEntry (run_request (onSend now req w (PStream s))) = Some e'
        /\ duration_ms e' = Some (elapsed now req))
  /\ (forall err,
      err <> JUndefined -> err <> JNull ->
      exists e',
        logFile (run_world (onError now req w err)) = logFile w ++ [e']
        /\ logEntry (run_request (onError now req w err)) = Some e'
        /\ duration_ms e' = Some (elapsed now req))
  /\ (forall s reason,
      ending_of s = Errored reason ->
      logFile (run_world (onSend now req w (PStream s))) = logFile w
      /\ (forall message text,
             get reason (str "message") = Ok message ->
             toString message = Ok text ->
             errorLog (run_world (onSend now req w (PStream s)))
             = errorLog w ++ [collecting_error text]
             /\ background_task s w = Ok tt)
      /\ (reason = JUndefined \/ reason = JNull
          \/ (exists message, get reason (str "message") = Ok message
                              /\ toString message = Throw) ->
          errorLog (run_world (onSend now req w (PStream s))) = errorLog w
          /\ background_task s w = Throw))
  /\ (forall p err,
      length (logFile (run_world (onSend now req w p)))
      <= length (logFile w) + 1
      /\ length (logFile (run_world (onError now req w err)))
         <= length (logFile w) + 1)
  /\ (forall later v err,
      typeof_object v = true ->
      run_result (onSend now req w (PValue v)) = Ok (PValue v) ->
      err <> JUndefined -> err <> JNull ->
      exists e1 e2,
        logFile (run_world (onSend now req w (PValue v))) = logFile w ++ [e1]
        /\ logFile (run_world
                      (onError later
                         (run_request (onSend now req w (PValue v)))
                         (run_world (onSend now req w (PValue v))) err))
           = logFile w ++ [e1; e2]).
Proof.
  intros He Hdisk.
  set (e0 := set_duration_ms e (elapsed now req)).
  split; [|split; [|split; [|split; [|split]]]].
  - intros v err Hobj Herr Hshape.
    assert (Hdone : snd (summarize v e0) = Ok tt).
    { destruct Hshape as [Ht | Hblocks].
      - now rewrite (summarize_error v err e0 Herr Ht).
      - unfold summarize. rewrite Herr.
        destruct (truthy err); [reflexivity|].
        destruct (get_opt v (str "content")) eqn:Hc; try reflexivity.
        rewrite (textContent_blocks items (Hblocks items eq_refl)).
        now destruct (join [LF] (block_texts items)). }
    exists (fst (summarize v e0)).
    destruct (onSend_direct_appends now req w v e He Hobj Hdone Hdisk)
      as [Hlog _].
    split; [exact Hlog|].
    split; [now apply onSend_direct_entry|].
    unfold e0. now rewrite duration_summarize.
  - intros s Hend.
    destruct (onSend_stream_closed now req w s e He Hdisk Hend) as [Hlog Hreq].
    eexists. split; [exact Hlog|]. split; [exact Hreq|].
    change (duration_ms (entry (read_chunks (start_collector e0) (chunks s)))
            = Some (elapsed now req)).
    now rewrite duration_read_chunks.
  - intros err Hu Hn. exact (onError_appends now req w e err He Hdisk Hu Hn).
  - intros s reason Hend.
    rewrite (onSend_stream_errored now req w s e reason He Hend).
    unfold background_task. rewrite Hend. unfold report_failure.
    split; [|split].
    + destruct (get reason _) as [message|]; cbn [bind]; [|reflexivity].
      now destruct (toString message).
    + intros message text Hget Htext. rewrite Hget. cbn [bind].
      rewrite Htext. cbn [bind]. now split.
    + intros [-> | [-> | [message [Hget Htext]]]]; [now split | now split |].
      rewrite Hget. cbn [bind]. rewrite Htext. now split.
  - intros p err. apply hooks_append_at_most_once.
  - intros later v err Hobj Hret Hu Hn.
    unfold onSend in *. rewrite He, Hobj in *.
    destruct (summarize v _) as [e1 [[]|]]; [|discriminate Hret].
    unfold appendFile in *. rewrite Hdisk in *.
    cbn [run_request run_world logFile].
    destruct (onError_appends later (set_logEntry req e1)
                {| logFile := logFile w ++ [e1]; errorLog := errorLog w;
                   appendFailure := None |} e1 err eq_refl eq_refl Hu Hn)
      as [e2 [Hlog _]].
    exists e1, e2. split; [reflexivity|].
    rewrite Hlog. cbn [logFile]. now rewrite <- app_assoc.
Qed.

(** The caller's branch of a stream is the stream, whatever the logging
    branch and the disk do. *)
Lemma stream_is_passed_through
    (now : Z) (req : FastifyRequest) (w : World) (s : ReadableStream) :
  run_result (onSend now req w (PStream s)) = Ok (PStream s).
Proof. apply onSend_stream_returns. Qed.

End HookProperties.

(* ================================================================= *)
(** ** The hooks run on the inputs of [Demo] *)

Section Runs.
#[local] Existing Instance Ref.numbers.
#[local] Existing Instance Ref.runtime.

Lemma truncation_of_message_text_run :
  get Demo.hello_message (str "role") = Ok (JStr (str "user"))
  /\ get Demo.hello_message (str "content") = Ok (JStr (str "hello"))
  /\ sanitize_message Demo.cutting_options Demo.hello_message
     = Ok (JObj [(str "role", JStr (str "user"));
                 (str "content",
                  JStr (str "hel... [truncated, 2 more chars]"))]).
Proof.
  split; [reflexivity|split; [reflexivity|]].
  exact (proj1 (truncation_of_message_text Demo.cutting_options
                  Demo.hello_message (JStr (str "user")) (str "hello")
                  eq_refl eq_refl)).
Defined.

Lemma empty_text_block_run :
  get Demo.empty_text_block (str "type") = Ok (JStr (str "text"))
  /\ is_str (JStr (str "text")) (str "text") = true
  /\ get Demo.empty_text_block (str "text") = Ok (JStr [])
  /\ sanitize_item Demo.cutting_options Demo.empty_text_block
     = Ok Demo.empty_text_block.
Proof.
  split; [reflexivity|split; [reflexivity|split; [reflexivity|]]].
  exact (empty_text_block_passes_through Demo.cutting_options
           Demo.empty_text_block (JStr (str "text")) (JStr [])
           eq_refl eq_refl eq_refl (or_introl eq_refl)).
Defined.

Lemma other_routes_run :
  targets_endpoint Demo.health_check = false
  /\ logEntry Demo.health_check = None
  /\ preHandler default_options 1000 (str "2026-01-01T00:00:00.000Z")
       Demo.health_check = (Demo.health_check, Ok tt)
  /\ logFile (run_world (onSend 1500 Demo.health_check Demo.disk
                           (PValue Demo.message_payload))) = [].
Proof.
  split; [reflexivity|split; [reflexivity|]].
  pose proof (other_routes_are_untouched default_options 1000 1500 1500
                (str "2026-01-01T00:00:00.000Z") Demo.health_check Demo.disk
                (PValue Demo.message_payload) JNull eq_refl eq_refl)
    as [Hpre [Hsend _]].
  split; [exact Hpre|]. now rewrite Hsend.
Defined.


Lemma line_aligned_stream_run :
  ending_of Demo.aligned_stream = Closed
  /\ line_aligned (chunks Demo.aligned_stream) = true
  /\ response_fullText
       (response (fst (collect Demo.entry Demo.aligned_stream Demo.disk)))
     = Some (str "Hi there").
Proof.
  split; [reflexivity|split; [reflexivity|]].
  exact (fullText_of_line_aligned_stream Demo.entry Demo.aligned_stream
           Demo.disk eq_refl eq_refl).
Defined.

(** C2, as stated, fails: the stream [Demo.split_stream] carries the
    text deltas [Hi] and [ there], but delivered with a chunk boundary
    inside its second frame it is logged with [fullText = "Hi"]. *)
Lemma split_frame_loses_its_text :
  stream_text (concat (chunks Demo.split_stream)) = str "Hi there"
  /\ response_fullText
       (response (fst (collect Demo.entry Demo.split_stream Demo.disk)))
     = Some (str "Hi")
  /\ ~ (forall (e : RequestLogEntry) (s : ReadableStream) (w : World),
          ending_of s = Closed ->
          response_fullText (response (fst (collect e s w)))
          = Some (stream_text (concat (chunks s)))).
Proof.
  split; [reflexivity|split; [reflexivity|]].
  intros H.
  specialize (H Demo.entry Demo.split_stream Demo.disk eq_refl).
  vm_compute in H. discriminate H.
Qed.

(** C6, as stated, fails: after two [message_start] events the id and
    the model are those of the second event, not of the first. *)
Lemma second_message_start_overwrites :
  let c := on_data Demo.second_start
             (on_data Demo.first_start (start_collector Demo.entry)) in
  get_opt (get_opt Demo.first_start (str "message")) (str "id")
    = JStr (str "msg_1")
  /\ get_opt (get_opt Demo.first_start (str "message")) (str "model")
    = JStr (str "m1")
  /\ messageId c = JStr (str "msg_2")
  /\ model c = JStr (str "m2")
  /\ response_id (response (finalize c)) <> JStr (str "msg_1")
  /\ response_model (response (finalize c)) <> JStr (str "m1").
Proof.
  cbv zeta.
  split; [reflexivity|split; [reflexivity|]].
  split; [reflexivity|split; [reflexivity|]].
  split; vm_compute; discriminate.
Qed.

Lemma direct_error_run :
  logEntry Demo.captured = Some Demo.entry
  /\ typeof_object Demo.error_payload = true
  /\ get Demo.error_payload (str "error")
     = Ok (Demo.parsed "{'type':'overloaded_error','message':'Overloaded'}")
  /\ exists e',
       logFile (run_world (onSend 1500 Demo.captured Demo.disk
                             (PValue Demo.error_payload))) = [e']
       /\ error e' = JObj [(str "type", JStr (str "overloaded_error"));
                           (str "message", JStr (str "Overloaded"))]
       /\ response e' = empty_response.
Proof.
  split; [reflexivity|split; [reflexivity|split; [reflexivity|]]].
  destruct (direct_payload_error_or_summary 1500 Demo.captured Demo.disk
              Demo.error_payload
              (Demo.parsed "{'type':'overloaded_error','message':'Overloaded'}")
              Demo.entry eq_refl eq_refl eq_refl)
    as [e' [_ [Herr _]]].
  destruct (Herr eq_refl) as [He [Hr Hlog]].
  destruct (Hlog eq_refl) as [Hfile _].
  exists e'. split; [exact Hfile|]. split; [exact He|exact Hr].
Defined.

(** The message of the example: the texts of its two text blocks,
    joined by a line feed, are the [fullText] of the record. *)
Lemma direct_fullText_run :
  logEntry Demo.captured = Some Demo.entry
  /\ response_fullText (response Demo.entry) = None
  /\ get Demo.message_payload (str "error") = Ok JUndefined
  /\ get Demo.message_payload (str "content") = Ok (JArr Demo.message_blocks)
  /\ texts_of Demo.message_blocks = Some [str "Hello"; str "world"]
  /\ exists e',
       logFile (run_world (onSend 1500 Demo.captured Demo.disk
                             (PValue Demo.message_payload))) = [e']
       /\ response_fullText (response e')
          = Some (str "Hello" ++ [LF] ++ str "world").
Proof.
  split; [reflexivity|split; [reflexivity|split; [reflexivity|]]].
  split; [reflexivity|split; [reflexivity|]].
  destruct (direct_fullText_joins_texts 1500 Demo.captured Demo.disk
              Demo.message_payload JUndefined Demo.message_blocks
              [str "Hello"; str "world"] Demo.entry
              eq_refl eq_refl eq_refl eq_refl eq_refl eq_refl)
    as [e' [_ [Htext [_ [_ Hlog]]]]].
  destruct (Hlog eq_refl) as [Hfile _].
  exists e'. split; [exact Hfile | exact Htext].
Defined.

(** C9, as stated, fails: all the text blocks of this payload have an
    empty text, yet the record that is appended carries a [fullText],
    the line feed that joins the two empty texts. *)
Lemma two_empty_text_blocks_keep_fullText :
  get Demo.two_empty_texts_payload (str "content")
  = Ok (JArr [Demo.parsed "{'type':'text','text':''}";
              Demo.parsed "{'type':'text','text':''}"])
  /\ logEntry Demo.captured = Some Demo.entry
  /\ exists e',
       logFile (run_world (onSend 1500 Demo.captured Demo.disk
                             (PValue Demo.two_empty_texts_payload))) = [e']
       /\ response_fullText (response e') = Some [LF]
       /\ response_fullText (response e') <> None.
Proof.
  split; [reflexivity|split; [reflexivity|]].
  eexists. split; [reflexivity|]. split; [reflexivity | discriminate].
Qed.

(** The runs of the example: each finishing run appends one record; a
    stream errored with an error object leaves its line, one errored
    without a reason leaves none; [onError] after a logged reply makes a
    second record. *)
Lemma one_record_run :
  logEntry Demo.captured = Some Demo.entry
  /\ appendFailure Demo.disk = None
  /\ length (logFile (run_world (onSend 1500 Demo.captured Demo.disk
                                   (PValue Demo.message_payload)))) = 1
  /\ length (logFile (run_world (onSend 1500 Demo.captured Demo.disk
                                   (PValue Demo.error_payload)))) = 1
  /\ length (logFile (run_world (onSend 1500 Demo.captured Demo.disk
                                   (PStream Demo.example_stream)))) = 1
  /\ length (logFile (run_world (onError 1500 Demo.captured Demo.disk
                                   Demo.upstream_error))) = 1
  /\ errorLog (run_world (onSend 1500 Demo.captured Demo.disk
                            (PStream Demo.broken_stream)))
     = [str "Error collecting streaming response: socket hang up"]
  /\ errorLog (run_world (onSend 1500 Demo.captured Demo.disk
                            (PStream Demo.stream_errored_without_reason)))
     = []
  /\ background_task Demo.stream_errored_without_reason Demo.disk = Throw
  /\ length (logFile (run_world
                        (onError 1600
                           (run_request (onSend 1500 Demo.captured Demo.disk
                                           (PValue Demo.message_payload)))
                           (run_world (onSend 1500 Demo.captured Demo.disk
                                         (PValue Demo.message_payload)))
                           Demo.upstream_error))) = 2.
Proof.
  split; [reflexivity|split; [reflexivity|]].
  destruct (one_record_per_finishing_run 1500 Demo.captured Demo.disk
              Demo.entry eq_refl eq_refl)
    as [Hdirect [Hstream [Herror [Hfailed [_ Htwice]]]]].
  assert (Hblocks : Forall (fun b => is_block b = true) Demo.message_blocks).
  { vm_compute. repeat constructor. }
  split; [|split; [|split; [|split; [|split; [|split; [|split]]]]]].
  - destruct (Hdirect Demo.message_payload JUndefined eq_refl eq_refl)
      as [e' [Hlog _]].
    + right. intros items Hitems.
      replace items with Demo.message_blocks; [exact Hblocks|].
      vm_compute in Hitems. injection Hitems as <-. reflexivity.
    + now rewrite Hlog.
  - destruct (Hdirect Demo.error_payload
                (Demo.parsed "{'type':'overloaded_error','message':'Overloaded'}")
                eq_refl eq_refl (or_introl eq_refl))
      as [e' [Hlog _]].
    now rewrite Hlog.
  - destruct (Hstream Demo.example_stream eq_refl) as [e' [Hlog _]].
    now rewrite Hlog.
  - destruct (Herror Demo.upstream_error) as [e' [Hlog _]];
      [vm_compute; discriminate | vm_compute; discriminate |].
    now rewrite Hlog.
  - destruct (Hfailed Demo.broken_stream
                (Demo.parsed "{'message':'socket hang up'}") eq_refl)
      as [_ [Hline _]].
    destruct (Hline (JStr (str "socket hang up")) (str "socket hang up")
                eq_refl eq_refl) as [Hlog _].
    exact Hlog.
  - destruct (Hfailed Demo.stream_errored_without_reason JUndefined eq_refl)
      as [_ [_ Hnone]].
    destruct (Hnone (or_introl eq_refl)) as [Hlog _]. exact Hlog.
  - destruct (Hfailed Demo.stream_errored_without_reason JUndefined eq_refl)
      as [_ [_ Hnone]].
    destruct (Hnone (or_introl eq_refl)) as [_ Htask]. exact Htask.
  - destruct (Htwice 1600%Z Demo.message_payload Demo.upstream_error
                eq_refl eq_refl) as [e1 [e2 [_ Hlog]]];
      [vm_compute; discriminate | vm_compute; discriminate |].
    now rewrite Hlog.
Defined.

(** C1, as stated, fails: when reading the stream fails, the request
    that was captured leaves no record in the log file, only a line in
    the error log. *)
Lemma failed_stream_appends_no_record :
  logEntry Demo.captured = Some Demo.entry
  /\ logFile (run_world (onSend 1500 Demo.captured Demo.disk
                           (PStream Demo.broken_stream))) = []
  /\ errorLog (run_world (onSend 1500 Demo.captured Demo.disk
                            (PStream Demo.broken_stream)))
     = [str "Error collecting streaming response: socket hang up"].
Proof. repeat split. Qed.

(** C3 at its failing inputs: on a captured request [onSend] throws
    instead of returning a payload that is [null], and also when the
    payload is a message and [appendFile] rejects, whereas on the
    streaming path the same rejection is caught and the stream is
    returned. *)
Theorem direct_payload_not_returned :
  run_result (onSend 1500 Demo.captured Demo.disk (PValue JNull)) = Throw
  /\ logFile (run_world (onSend 1500 Demo.captured Demo.disk (PValue JNull)))
     = []
  /\ run_result (onSend 1500 Demo.captured Demo.full_disk
                   (PValue Demo.message_payload)) = Throw
  /\ run_result (onSend 1500 Demo.captured Demo.full_disk
                   (PStream Demo.example_stream))
     = Ok (PStream Demo.example_stream).
Proof. repeat split. Qed.

(** One empty text block joins to the empty string, so [fullText] is
    left out. *)
Example single_empty_text_block_run :
  textContent [Demo.empty_text_block] = Ok []
  /\ texts_of [Demo.empty_text_block] = Some [[]].
Proof. split; reflexivity. Qed.

(** The example stream of the specification gives the summary the
    specification states. *)
Example example_stream_summary :
  let e := fst (collect Demo.entry Demo.example_stream Demo.disk) in
  response_id (response e) = JStr (str "x1")
  /\ response_model (response e) = JStr (str "m1")
  /\ response_fullText (response e) = Some (str "Hi there")
  /\ response_stop_reason (response e) = JStr (str "end_turn")
  /\ response_usage (response e)
     = Demo.parsed "{'input_tokens':5,'output_tokens':2}".
Proof. repeat split. Qed.

End Runs.

(* ================================================================= *)
(** ** Further properties of the sanitizer and of [preHandler] *)

Section CaptureProperties.
Context {NUM : Numbers} {RT : Runtime}.

Lemma startsWith_app (p s : jsstring) :
  startsWith p s = true <-> exists t, s = p ++ t.
Proof.
  revert s; induction p as [|x p IH]; intros s; cbn [startsWith].
  - split; [intros _; now exists s | reflexivity].
  - destruct s as [|y s].
    + split; [discriminate | intros [t Ht]; discriminate Ht].
    + rewrite andb_true_iff, N.eqb_eq, IH. split.
      * intros [-> [t ->]]. now exists t.
      * intros [t Ht]. injection Ht as -> ->. split; [reflexivity | now exists t].
Qed.

Lemma endsWith_app (p s : jsstring) :
  endsWith p s = true <-> exists a, s = a ++ p.
Proof.
  unfold endsWith. rewrite startsWith_app. split.
  - intros [t Ht]. exists (rev t).
    rewrite <- (rev_involutive s), Ht, rev_app_distr, rev_involutive.
    reflexivity.
  - intros [a ->]. exists (rev a). apply rev_app_distr.
Qed.

(** X1. A request is captured exactly when its [pathname] is a string
    that ends with [/v1/messages]: any prefix is accepted, nothing may
    follow, and a request without [pathname] is not captured. *)
Theorem endpoint_is_a_suffix_test (req : FastifyRequest) :
  targets_endpoint req = true
  <-> exists prefix, pathname req = Some (prefix ++ str "/v1/messages").
Proof.
  unfold targets_endpoint, endpoint.
  destruct (pathname req) as [p|].
  - rewrite endsWith_app. split.
    + intros [a ->]. now exists a.
    + intros [a [= ->]]. now exists a.
  - split; [discriminate | intros [a Ha]; discriminate Ha].
Qed.

(** X2. When [truncate] cuts a text of length [L] at [N], the result has
    [N + 28] code units plus the digits of [L - N]: it is always longer
    than [N], and longer than the text itself as soon as [L <= N + 28]. *)
Theorem truncated_text_length (s : jsstring) (n : nat) :
  0 < n ->
  n < length s ->
  length (truncate s n) = n + 28 + length (nat_toString (length s - n))
  /\ n + 28 < length (truncate s n)
  /\ (length s <= n + 28 -> length s < length (truncate s n)).
Proof.
  intros Hn Hlt.
  assert (Hlen : length (truncate s n)
                 = n + 28 + length (nat_toString (length s - n))).
  { unfold truncate, substring_to, truncated_marker.
    replace (n =? 0) with false by (symmetry; apply Nat.eqb_neq; lia).
    replace (length s <=? n) with false by (symmetry; apply Nat.leb_gt; lia).
    cbn [orb]. rewrite !length_app, length_firstn.
    change (length (str "... [truncated, ")) with 16.
    change (length (str " more chars]")) with 12. lia. }
  pose proof (nat_toString_nonempty (length s - n)) as Hne.
  destruct (nat_toString (length s - n)) as [|d ds]; [congruence|].
  cbn [length] in *. split; [lia|split; [lia|intros; lia]].
Qed.

(** The guarded call [N > 0 ? truncate(s, N) : s] is [truncate(s, N)]. *)
Lemma guarded_truncate (s : jsstring) (n : nat) :
  (if 0 <? n then truncate s n else s) = truncate s n.
Proof. destruct n; reflexivity. Qed.

Lemma map_result_Forall2 {A B} (f : A -> result B) (xs : list A) (ys : list B) :
  map_result f xs = Ok ys -> Forall2 (fun x y => f x = Ok y) xs ys.
Proof.
  revert ys; induction xs as [|x xs IH]; intros ys; cbn [map_result].
  - intros [= <-]. constructor.
  - destruct (f x) as [y|] eqn:Hx; cbn [bind]; [|discriminate].
    destruct (map_result f xs) as [ys'|]; cbn [bind]; [|discriminate].
    intros [= <-]. constructor; [exact Hx | now apply IH].
Qed.

Lemma is_str_other (v : val) (a b : jsstring) :
  is_str v a = true -> streq a b = false -> is_str v b = false.
Proof. intros Ha Hab. apply is_str_eq in Ha. subst v. exact Hab. Qed.

(** What [sanitize_item] gives for each kind of block. *)
Lemma sanitize_item_by_kind
    (options : RequestLoggerOptions) (item logged : val) :
  sanitize_item options item = Ok logged ->
  let ty := get_opt item (str "type") in
  (is_str ty (str "image") = true -> logged = image_placeholder)
  /\ (is_str ty (str "tool_use") = true -> logged = tool_use_entry item)
  /\ (is_str ty (str "tool_result") = true -> logged = tool_result_entry item)
  /\ (is_str ty (str "text") = true ->
      forall c s, get_opt item (str "text") = JStr (c :: s) ->
      logged = JObj [(str "type", JStr (str "text"));
                     (str "text",
                      JStr (truncate (c :: s) (maxMessageLength options)))]).
Proof.
  unfold sanitize_item.
  destruct (get item (str "type")) as [ty0|] eqn:Hty; cbn [bind]; [|discriminate].
  rewrite (get_opt_get _ _ _ Hty).
  assert (Hget : forall k, get item k = Ok (get_opt item k)).
  { intros k. unfold get_opt. destruct item; try discriminate; cbn;
      try reflexivity. now destruct (own k fields). }
  rewrite !Hget. cbn [bind]. intros H. cbv zeta.
  repeat split.
  - intros Hk. rewrite (is_str_other _ _ (str "text") Hk eq_refl) in H.
    cbn [andb] in H. rewrite Hk in H. now injection H as <-.
  - intros Hk. rewrite (is_str_other _ _ (str "text") Hk eq_refl) in H.
    rewrite (is_str_other _ _ (str "image") Hk eq_refl) in H.
    cbn [andb] in H. rewrite Hk in H. now injection H as <-.
  - intros Hk. rewrite (is_str_other _ _ (str "text") Hk eq_refl) in H.
    rewrite (is_str_other _ _ (str "image") Hk eq_refl) in H.
    rewrite (is_str_other _ _ (str "tool_use") Hk eq_refl) in H.
    cbn [andb] in H. rewrite Hk in H. now injection H as <-.
  - intros Hk c s Htext. rewrite Hk, Htext in H. cbn [truthy andb] in H.
    unfold truncate_any in H.
    destruct (0 <? maxMessageLength options) eqn:HN; cbn [bind] in H.
    + now injection H as <-.
    + injection H as <-. apply Nat.ltb_ge in HN.
      replace (maxMessageLength options) with 0 by lia. reflexivity.
Qed.

(** X3. When a message whose [content] is an array is sanitized, the
    logged message has the role and a content of as many blocks, block
    for block: an image becomes the placeholder, a tool use keeps its
    name and id, a tool result the id of its tool use, and a text block
    with a non-empty string keeps its type and its truncated text; the
    other properties of these blocks and of the message are dropped. *)
Theorem blocks_are_logged_by_kind
    (options : RequestLoggerOptions) (msg out : val) (items : list val) :
  sanitize_message options msg = Ok out ->
  get msg (str "content") = Ok (JArr items) ->
  exists role logged,
    get msg (str "role") = Ok role
    /\ out = JObj [(str "role", role); (str "content", JArr logged)]
    /\ Forall2
         (fun item block =>
            let ty := get_opt item (str "type") in
            (is_str ty (str "image") = true -> block = image_placeholder)
            /\ (is_str ty (str "tool_use") = true -> block = tool_use_entry item)
            /\ (is_str ty (str "tool_result") = true ->
                block = tool_result_entry item)
            /\ (is_str ty (str "text") = true ->
                forall c s, get_opt item (str "text") = JStr (c :: s) ->
                block = JObj [(str "type", JStr (str "text"));
                              (str "text",
                               JStr (truncate (c :: s)
                                       (maxMessageLength options)))]))
         items logged.
Proof.
  unfold sanitize_message. intros H Hcontent.
  destruct (get msg (str "role")) as [role|]; cbn [bind] in H; [|discriminate].
  rewrite Hcontent in H. cbn [bind] in H.
  destruct (map_result (sanitize_item options) items) as [logged|] eqn:Hmap;
    cbn [bind] in H; [|discriminate].
  injection H as <-. exists role, logged.
  split; [reflexivity|split; [reflexivity|]].
  apply map_result_Forall2 in Hmap.
  eapply Forall2_impl; [|exact Hmap].
  intros item block Hitem. exact (sanitize_item_by_kind options item block Hitem).
Qed.

(** X4. When [sanitizeMessages] returns for an array of messages (and
    messages are included), it returns as many messages, in order, each
    reduced to the role of its message and at most a content. *)
Theorem messages_keep_count_and_roles
    (options : RequestLoggerOptions) (msgs out : list val) :
  includeMessages options = true ->
  sanitizeMessages options (JArr msgs) = Ok out ->
  length out = length msgs
  /\ Forall2
       (fun msg logged =>
          exists role,
            get msg (str "role") = Ok role
            /\ (logged = JObj [(str "role", role)]
                \/ exists content,
                     logged = JObj [(str "role", role);
                                    (str "content", content)]))
       msgs out.
Proof.
  intros Hinc. unfold sanitizeMessages. rewrite Hinc. cbn [negb truthy].
  intros Hmap. apply map_result_Forall2 in Hmap.
  split; [symmetry; exact (Forall2_length Hmap)|].
  eapply Forall2_impl; [|exact Hmap].
  intros msg logged. unfold sanitize_message.
  destruct (get msg (str "role")) as [role|]; cbn [bind]; [|discriminate].
  destruct (get msg (str "content")) as [content|]; cbn [bind]; [|discriminate].
  intros H. exists role. split; [reflexivity|].
  destruct content; try (injection H as <-; now left).
  - injection H as <-. right. eauto.
  - destruct (map_result (sanitize_item options) items);
      cbn [bind] in H; [|discriminate].
    injection H as <-. right. eauto.
Qed.

(** What a run of [preHandler] that returns has done. *)
Lemma preHandler_returned
    (options : RequestLoggerOptions) (now : Z) (iso : jsstring)
    (req req' : FastifyRequest) :
  targets_endpoint req = true ->
  preHandler options now iso req = (req', Ok tt) ->
  exists e,
    new_logEntry options iso req = Ok e
    /\ req' = set_logEntry (set_requestStartTime req now) e.
Proof.
  intros Hpath. unfold preHandler. rewrite Hpath.
  destruct (new_logEntry options iso req) as [e|]; [|discriminate].
  intros [= <-]. now exists e.
Qed.

Lemma new_logEntry_fields
    (options : RequestLoggerOptions) (iso : jsstring)
    (req : FastifyRequest) (e : RequestLogEntry) :
  new_logEntry options iso req = Ok e ->
  exists messages tools,
    sanitizeMessages options
      (or_else (get_opt (body req) (str "messages")) (JArr [])) = Ok messages
    /\ logged_tools options (get_opt (body req) (str "tools")) = Ok tools
    /\ e = {| timestamp := iso;
              sessionId := or_else (req_sessionId req) (JStr (str "unknown"));
              preset := req_preset req;
              request :=
                {| request_model := get_opt (body req) (str "model");
                   request_max_tokens := get_opt (body req) (str "max_tokens");
                   request_temperature :=
                     get_opt (body req) (str "temperature");
                   request_system :=
                     logged_system options (get_opt (body req) (str "system"));
                   request_messages := messages;
                   request_tools := tools;
                   request_stream := get_opt (body req) (str "stream") |};
              response := empty_response;
              duration_ms := None;
              error := JUndefined |}.
Proof.
  unfold new_logEntry.
  destruct (sanitizeMessages options _) as [messages|]; cbn [bind];
    [|discriminate].
  destruct (logged_tools options _) as [tools|]; cbn [bind]; [|discriminate].
  intros [= <-]. now exists messages, tools.
Qed.

(** X5. When [preHandler] returns on a captured request, the request
    carries the start time and an entry with the given timestamp, the
    session id of the request or ['unknown'] when that is missing or
    empty, an empty response summary, no duration and no error. *)
Theorem captured_entry_starts_blank
    (options : RequestLoggerOptions) (now : Z) (iso : jsstring)
    (req req' : FastifyRequest) :
  targets_endpoint req = true ->
  preHandler options now iso req = (req', Ok tt) ->
  requestStartTime req' = Some now
  /\ exists e,
       logEntry req' = Some e
       /\ timestamp e = iso
       /\ sessionId e = (if truthy (req_sessionId req)
                         then req_sessionId req
                         else JStr (str "unknown"))
       /\ preset e = req_preset req
       /\ response e = empty_response
       /\ duration_ms e = None
       /\ error e = JUndefined.
Proof.
  intros Hpath Hrun.
  destruct (preHandler_returned options now iso req req' Hpath Hrun)
    as [e [He ->]].
  split; [reflexivity|]. exists e. split; [reflexivity|].
  destruct (new_logEntry_fields options iso req e He)
    as [messages [tools [_ [_ ->]]]].
  repeat split.
Qed.

(** X6. The system prompt of a captured request, when it is a string of
    length [L]: it is not logged when the option is off or the string is
    empty; otherwise it is logged whole when [N = 0] or [L <= 2N], and
    else as its first [2N] code units followed by the marker with
    [L - 2N]. *)
Theorem system_prompt_is_cut_at_twice_the_bound
    (options : RequestLoggerOptions) (now : Z) (iso : jsstring)
    (req req' : FastifyRequest) (s : jsstring) :
  targets_endpoint req = true ->
  preHandler options now iso req = (req', Ok tt) ->
  get_opt (body req) (str "system") = JStr s ->
  let N := maxMessageLength options in
  let L := length s in
  exists e,
    logEntry req' = Some e
    /\ request_system (request e)
       = if includeSystemPrompt options && negb (L =? 0) then
           JStr (if (0 <? N) && (2 * N <? L)
                 then firstn (2 * N) s ++ str "... [truncated, "
                      ++ nat_toString (L - 2 * N) ++ str " more chars]"
                 else s)
         else JUndefined.
Proof.
  intros Hpath Hrun Hsys N L.
  destruct (preHandler_returned options now iso req req' Hpath Hrun)
    as [e [He ->]].
  exists e. split; [reflexivity|].
  destruct (new_logEntry_fields options iso req e He)
    as [messages [tools [_ [_ ->]]]].
  cbn [request request_system]. rewrite Hsys. unfold logged_system.
  destruct (includeSystemPrompt options); cbn [andb]; [|reflexivity].
  destruct s as [|c s']; [reflexivity|].
  cbn [truthy]. change (negb (L =? 0)) with true. cbv iota.
  subst N. destruct (maxMessageLength options) as [|n]; [reflexivity|].
  change (0 <? S n) with true. cbv iota. rewrite truncate_cases. fold L.
  replace (S n * 2) with (2 * S n) by lia.
  replace (0 <? 2 * S n) with true by (symmetry; apply Nat.ltb_lt; lia).
  reflexivity.
Qed.

Lemma map_result_total {A B} (f : A -> result B) (g : A -> B)
    (xs : list A) (ys : list B) :
  (forall x y, f x = Ok y -> y = g x) ->
  map_result f xs = Ok ys -> ys = map g xs.
Proof.
  intros Hfg Hmap. apply map_result_Forall2 in Hmap.
  induction Hmap as [|x y xs ys Hx _ IH]; [reflexivity|].
  cbn [map]. now rewrite (Hfg x y Hx), IH.
Qed.

(** X7. The tools of a captured request, when they are an array: they
    are not logged unless the option is on, and then they are logged as
    as many entries, in order, each made of the name and the description
    of its tool and nothing else (no input schema). *)
Theorem tools_are_logged_as_descriptors
    (options : RequestLoggerOptions) (now : Z) (iso : jsstring)
    (req req' : FastifyRequest) (tools : list val) :
  targets_endpoint req = true ->
  preHandler options now iso req = (req', Ok tt) ->
  get_opt (body req) (str "tools") = JArr tools ->
  exists e,
    logEntry req' = Some e
    /\ request_tools (request e)
       = if includeTools options
         then JArr (map tool_descriptor tools)
         else JUndefined.
Proof.
  intros Hpath Hrun Htools.
  destruct (preHandler_returned options now iso req req' Hpath Hrun)
    as [e [He ->]].
  exists e. split; [reflexivity|].
  destruct (new_logEntry_fields options iso req e He)
    as [messages [logged [_ [Hlogged ->]]]].
  cbn [request request_tools]. rewrite Htools in Hlogged.
  unfold logged_tools in Hlogged.
  destruct (includeTools options); cbn [andb truthy] in Hlogged.
  - destruct (map_result _ tools) as [ts|] eqn:Hmap; cbn [bind] in Hlogged;
      [|discriminate].
    injection Hlogged as <-. f_equal.
    apply (map_result_total _ tool_descriptor _ _) in Hmap; [exact Hmap|].
    intros tool y. unfold tool_descriptor, get_opt.
    destruct (get tool (str "name")); cbn [bind]; [|discriminate].
    destruct (get tool (str "description")); cbn [bind]; [|discriminate].
    now intros [= <-].
  - now injection Hlogged as <-.
Qed.

(** X8. When messages are included and the [messages] of the body are
    truthy but not an array, [preHandler] throws on a captured request:
    it leaves the start time but no entry, so that [onSend] and
    [onError] then do nothing for this request and no record is
    written. *)
Theorem malformed_messages_leave_no_entry
    (options : RequestLoggerOptions) (now : Z) (iso : jsstring)
    (req : FastifyRequest) :
  targets_endpoint req = true ->
  logEntry req = None ->
  includeMessages options = true ->
  truthy (get_opt (body req) (str "messages")) = true ->
  (forall msgs, get_opt (body req) (str "messages") <> JArr msgs) ->
  let req' := fst (preHandler options now iso req) in
  snd (preHandler options now iso req) = Throw
  /\ logEntry req' = None
  /\ requestStartTime req' = Some now
  /\ forall now' w p err,
       onSend now' req' w p
       = {| run_request := req'; run_world := w; run_result := Ok p |}
       /\ onError now' req' w err
          = {| run_request := req'; run_world := w; run_result := Ok tt |}.
Proof.
  intros Hpath Hentry Hinc Htruthy Hshape.
  assert (Hnew : new_logEntry options iso req = Throw).
  { unfold new_logEntry, sanitizeMessages, or_else.
    rewrite Htruthy, Hinc. cbn [negb]. rewrite Htruthy. cbn [negb].
    destruct (get_opt (body req) (str "messages")) eqn:Hm;
      try reflexivity.
    exfalso. exact (Hshape items eq_refl). }
  unfold preHandler. rewrite Hpath, Hnew. cbn [fst snd].
  split; [reflexivity|]. split; [exact Hentry|]. split; [reflexivity|].
  intros now' w p err. unfold onSend, onError.
  cbn [logEntry set_requestStartTime]. rewrite Hentry. now split.
Qed.

End CaptureProperties.

(* ================================================================= *)
(** ** Further properties of the streaming collector *)

Section StreamProperties.
Context {NUM : Numbers} {RT : Runtime}.

(** X9. Splitting a chunk into lines loses nothing: the lines joined by
    line feeds give the chunk back, and no line holds a line feed. *)
Theorem lines_rejoin_to_the_chunk (chunk : jsstring) :
  join [LF] (split_lines chunk) = chunk
  /\ Forall (fun line => ~ In LF line) (split_lines chunk).
Proof.
  induction chunk as [|c chunk [IHjoin IHfree]]; cbn [split_lines].
  - split; [reflexivity|]. constructor; [intros []|constructor].
  - destruct (N.eqb_spec c LF) as [->|Hc].
    + split.
      * cbn [join]. pose proof (split_lines_nonempty chunk) as Hne.
        destruct (split_lines chunk) as [|l ls]; [congruence|].
        cbn [app]. now rewrite IHjoin.
      * constructor; [intros []|exact IHfree].
    + pose proof (split_lines_nonempty chunk) as Hne.
      destruct (split_lines chunk) as [|l ls]; [congruence|].
      split.
      * rewrite <- IHjoin. cbn [join]. now destruct ls.
      * inversion IHfree as [|? ? Hl Hls]; subst.
        constructor; [|exact Hls].
        intros [Heq|Hin]; [now apply Hc | now apply Hl].
Qed.

(** X10. Whatever the chunking, the accumulated text grows chunk by
    chunk by the text deltas of the frames that lie whole inside the
    chunk; for a stream that ends, [fullText] is their concatenation. *)
Theorem fullText_is_read_chunk_by_chunk
    (e : RequestLogEntry) (s : ReadableStream) (w : World) (c : Collector) :
  fullText (read_chunks c (chunks s))
    = fullText c ++ concat (map stream_text (chunks s))
  /\ (ending_of s = Closed ->
      response_fullText (response (fst (collect e s w)))
      = Some (concat (map stream_text (chunks s)))).
Proof.
  assert (H : forall cs c0,
             fullText (read_chunks c0 cs)
             = fullText c0 ++ concat (map stream_text cs)).
  { induction cs as [|chunk cs IH]; intros c0.
    - cbn. now rewrite app_nil_r.
    - cbn [read_chunks fold_left map concat].
      fold (read_chunks (on_chunk c0 chunk) cs). rewrite IH.
      unfold on_chunk. rewrite fullText_lines. unfold stream_text.
      now rewrite app_assoc. }
  split; [apply H|].
  intros Hend. unfold collect. rewrite Hend.
  destruct (appendFile w _); cbn [fst]; rewrite fullText_finalize, H;
    reflexivity.
Qed.

(** What one event does to the usage, the stop reason and the entry. *)

Lemma text_throws_on_delta (ty data : val) (c : Collector) :
  capture_text ty data c = Throw ->
  is_str ty (str "content_block_delta") = true.
Proof.
  unfold capture_text.
  destruct (is_str ty (str "content_block_delta")); [reflexivity|].
  cbn [andb]. discriminate.
Qed.

Lemma tool_use_throws_on_start (ty data : val) (c : Collector) :
  capture_tool_use ty data c = Throw ->
  is_str ty (str "content_block_start") = true.
Proof.
  unfold capture_tool_use.
  destruct (is_str ty (str "content_block_start")); [reflexivity|].
  cbn [andb]. discriminate.
Qed.

Lemma usage_stop_text (ty data : val) (c c' : Collector) :
  capture_text ty data c = Ok c' ->
  lastUsage c' = lastUsage c /\ lastStopReason c' = lastStopReason c
  /\ entry c' = entry c.
Proof.
  unfold capture_text. destruct (_ && _).
  - destruct (toString _); cbn [bind]; [|discriminate]. now intros [= <-].
  - now intros [= <-].
Qed.

Lemma usage_stop_tool_use (ty data : val) (c c' : Collector) :
  capture_tool_use ty data c = Ok c' ->
  lastUsage c' = lastUsage c /\ lastStopReason c' = lastStopReason c.
Proof.
  unfold capture_tool_use. destruct (_ && _).
  - destruct (push_content _ _); cbn [bind]; [|discriminate].
    now intros [= <-].
  - now intros [= <-].
Qed.

Lemma usage_stop_on_data (data : val) (c : Collector) :
  lastUsage (on_data data c)
    = match usage_of data with Some u => u | None => lastUsage c end
  /\ lastStopReason (on_data data c)
    = match stop_reason_of data with
      | Some r => r
      | None => lastStopReason c
      end.
Proof.
  unfold on_data, usage_of, stop_reason_of.
  destruct (get data (str "type")) as [ty|] eqn:Hty.
  2:{ rewrite !(get_opt_throw _ _ Hty). cbn [is_str andb]. now split. }
  rewrite (get_opt_get _ _ _ Hty). cbv zeta.
  set (c1 := capture_message_start ty data c).
  assert (H1 : lastUsage c1 = lastUsage c
               /\ lastStopReason c1 = lastStopReason c).
  { subst c1. unfold capture_message_start. now destruct (is_str ty _). }
  destruct H1 as [Hu1 Hs1].
  destruct (capture_text ty data c1) as [c2|] eqn:H2.
  2:{ apply text_throws_on_delta in H2.
      rewrite (is_str_other _ _ (str "message_delta") H2 eq_refl).
      cbn [andb]. now split. }
  destruct (usage_stop_text _ _ _ _ H2) as [Hu2 [Hs2 _]].
  destruct (capture_tool_use ty data c2) as [c3|] eqn:H3.
  2:{ apply tool_use_throws_on_start in H3.
      rewrite (is_str_other _ _ (str "message_delta") H3 eq_refl).
      cbn [andb]. rewrite Hu2, Hs2. now split. }
  destruct (usage_stop_tool_use _ _ _ _ H3) as [Hu3 Hs3].
  unfold capture_message_delta.
  destruct (is_str ty (str "message_delta")); cbn [andb lastUsage lastStopReason].
  - rewrite Hu3, Hu2, Hu1, Hs3, Hs2, Hs1.
    split; [now destruct (truthy (get_opt data (str "usage")))|].
    now destruct (truthy (get_opt (get_opt data (str "delta"))
                            (str "stop_reason"))).
  - rewrite Hu3, Hu2, Hu1, Hs3, Hs2, Hs1. now split.
Qed.

Lemma content_on_data (data : val) (c : Collector) :
  let content := response_content (response (entry c)) in
  response_content (response (entry (on_data data c)))
    = match tool_use_of data with
      | Some b =>
          match or_else content (JArr []) with
          | JArr items => JArr (items ++ [b])
          | _ => content
          end
      | None => content
      end
  /\ response_usage (response (entry (on_data data c)))
     = response_usage (response (entry c))
  /\ response_role (response (entry (on_data data c)))
     = response_role (response (entry c))
  /\ response_stop_sequence (response (entry (on_data data c)))
     = response_stop_sequence (response (entry c))
  /\ same_capture (entry c) (entry (on_data data c))
  /\ error (entry (on_data data c)) = error (entry c).
Proof.
  unfold on_data, tool_use_of, same_capture.
  destruct (get data (str "type")) as [ty|] eqn:Hty.
  2:{ rewrite !(get_opt_throw _ _ Hty). cbn [is_str andb].
      repeat split. }
  rewrite (get_opt_get _ _ _ Hty). cbv zeta.
  set (c1 := capture_message_start ty data c).
  assert (H1 : entry c1 = entry c).
  { subst c1. unfold capture_message_start. now destruct (is_str ty _). }
  destruct (capture_text ty data c1) as [c2|] eqn:H2.
  2:{ apply text_throws_on_delta in H2.
      rewrite (is_str_other _ _ (str "content_block_start") H2 eq_refl).
      cbn [andb]. rewrite H1. repeat split. }
  destruct (usage_stop_text _ _ _ _ H2) as [_ [_ He2]].
  assert (H4 : forall c3, entry (capture_message_delta ty data c3) = entry c3).
  { intros c3. unfold capture_message_delta. now destruct (is_str ty _). }
  unfold capture_tool_use.
  destruct (is_str ty (str "content_block_start")
            && is_str (get_opt (get_opt data (str "content_block")) (str "type"))
                 (str "tool_use")).
  - unfold push_content. rewrite He2, H1.
    destruct (or_else (response_content (response (entry c))) (JArr []));
      cbn [bind]; try (rewrite He2, H1; repeat split).
    rewrite H4. cbn [entry]. repeat split.
  - rewrite H4, He2, H1. repeat split.
Qed.

Lemma last_of_usage_truthy (events : list val) (u : val) :
  last_of usage_of events = Some u -> truthy u = true.
Proof.
  induction events as [|d events IH]; cbn [last_of]; [discriminate|].
  destruct (last_of usage_of events) as [u'|].
  - intros [= <-]. now apply IH.
  - unfold usage_of. destruct (is_str _ _); cbn [andb]; [|discriminate].
    destruct (truthy (get_opt d (str "usage"))) eqn:Ht; [|discriminate].
    now intros [= <-].
Qed.

(** X11. Over a sequence of events, the usage and the stop reason of
    the summary are those of the last [message_delta] event that carries
    one; an event without usage (or without stop reason) leaves the
    earlier one in place, and with none at all the usage of the entry is
    left as it was and the stop reason is [undefined]. *)
Theorem usage_and_stop_reason_last_win
    (e : RequestLogEntry) (events : list val) :
  let final := fold_left (fun c data => on_data data c) events
                 (start_collector e) in
  response_usage (response (finalize final))
    = match last_of usage_of events with
      | Some u => u
      | None => response_usage (response e)
      end
  /\ response_stop_reason (response (finalize final))
    = match last_of stop_reason_of events with
      | Some r => r
      | None => JUndefined
      end.
Proof.
  cbv zeta.
  assert (H : forall evs c,
             let final := fold_left (fun c' data => on_data data c') evs c in
             lastUsage final
               = match last_of usage_of evs with
                 | Some u => u
                 | None => lastUsage c
                 end
             /\ lastStopReason final
               = match last_of stop_reason_of evs with
                 | Some r => r
                 | None => lastStopReason c
                 end
             /\ response_usage (response (entry final))
               = response_usage (response (entry c))).
  { induction evs as [|d evs IH]; intros c; [now repeat split|].
    cbn [fold_left last_of]. cbv zeta in IH.
    destruct (IH (on_data d c)) as [Hu [Hs He]].
    destruct (usage_stop_on_data d c) as [Hu1 Hs1].
    destruct (content_on_data d c) as [_ [He1 _]].
    rewrite Hu, Hs, He, Hu1, Hs1, He1.
    split; [now destruct (last_of usage_of evs)|].
    split; [now destruct (last_of stop_reason_of evs)|reflexivity]. }
  destruct (H events (start_collector e)) as [Hu [Hs He]].
  cbn [finalize response set_response response_usage response_stop_reason].
  rewrite Hu, Hs, He. cbn [start_collector lastUsage lastStopReason entry].
  split; [|reflexivity].
  destruct (last_of usage_of events) as [u|] eqn:Hlast; [|reflexivity].
  now rewrite (last_of_usage_truthy events u Hlast).
Qed.

(** X12. Over a sequence of events read into an entry without content,
    the content of the summary is the list of the tool uses the events
    announce, in order, each with its name and id only; it stays
    [undefined] when no event announces one. *)
Theorem tool_uses_are_collected_in_order
    (e : RequestLogEntry) (events : list val) :
  response_content (response e) = JUndefined ->
  let final := fold_left (fun c data => on_data data c) events
                 (start_collector e) in
  response_content (response (finalize final))
    = match tool_uses events with
      | [] => JUndefined
      | blocks => JArr blocks
      end.
Proof.
  intros Hblank. cbv zeta.
  assert (H : forall evs c acc,
             response_content (response (entry c))
               = match acc with [] => JUndefined | _ => JArr acc end ->
             response_content
               (response (entry (fold_left (fun c' data => on_data data c')
                                   evs c)))
               = match acc ++ tool_uses evs with
                 | [] => JUndefined
                 | blocks => JArr blocks
                 end).
  { induction evs as [|d evs IH]; intros c acc Hacc.
    - cbn [fold_left tool_uses]. rewrite app_nil_r, Hacc.
      now destruct acc.
    - cbn [fold_left tool_uses].
      destruct (content_on_data d c) as [Hc _]. cbv zeta in Hc.
      destruct (tool_use_of d) as [b|].
      + replace (acc ++ b :: tool_uses evs)
          with ((acc ++ [b]) ++ tool_uses evs)
          by (now rewrite <- app_assoc).
        apply IH. rewrite Hc, Hacc.
        destruct acc as [|a acc']; reflexivity.
      + apply IH. now rewrite Hc. }
  exact (H events (start_collector e) [] Hblank).
Qed.

Lemma no_frame_skipped (c : Collector) (line : jsstring) :
  no_frame line = true -> on_line c line = c.
Proof.
  unfold no_frame, on_line.
  destruct (startsWith _ line); [|reflexivity].
  now destruct (JSON_parse _).
Qed.

(** X13. A stream in which no line is a data frame with a well-formed
    body (no chunk at all, only event names, comments, blank lines or
    broken bodies) leaves the collector as it was; when it ends, the
    record of a blank entry has the empty string as [fullText] and
    nothing else in its summary. *)
Theorem frameless_stream_gives_empty_text
    (e : RequestLogEntry) (s : ReadableStream) (w : World) (c : Collector) :
  (forall chunk line,
      In chunk (chunks s) -> In line (split_lines chunk) ->
      no_frame line = true) ->
  read_chunks c (chunks s) = c
  /\ (ending_of s = Closed ->
      response e = empty_response ->
      response (fst (collect e s w)) = set_fullText empty_response []).
Proof.
  intros Hnone.
  assert (Hlines : forall lines c0,
             (forall line, In line lines -> no_frame line = true) ->
             fold_left on_line lines c0 = c0).
  { induction lines as [|l lines IH]; intros c0 Hl; [reflexivity|].
    cbn [fold_left]. rewrite (no_frame_skipped c0 l (Hl l (or_introl eq_refl))).
    apply IH. intros line Hin. apply Hl. now right. }
  assert (Hchunks : forall cs c0,
             (forall chunk, In chunk cs -> In chunk (chunks s)) ->
             read_chunks c0 cs = c0).
  { induction cs as [|chunk cs IH]; intros c0 Hsub; [reflexivity|].
    cbn [read_chunks fold_left]. fold (read_chunks (on_chunk c0 chunk) cs).
    unfold on_chunk. rewrite Hlines.
    - apply IH. intros ch Hin. apply Hsub. now right.
    - intros line Hin. apply (Hnone chunk line); [|exact Hin].
      apply Hsub. now left. }
  split; [now apply Hchunks|].
  intros Hend Hblank. unfold collect. rewrite Hend.
  rewrite (Hchunks (chunks s) (start_collector e) (fun _ H => H)).
  destruct (appendFile w _); cbn [fst];
    unfold finalize; cbn; rewrite Hblank; reflexivity.
Qed.

End StreamProperties.

(* ================================================================= *)
(** ** Further properties of [onSend] and [onError] *)

Section FinishProperties.
Context {NUM : Numbers} {RT : Runtime}.

Lemma same_capture_refl (e : RequestLogEntry) : same_capture e e.
Proof. now repeat split. Qed.

Lemma same_capture_trans (e1 e2 e3 : RequestLogEntry) :
  same_capture e1 e2 -> same_capture e2 e3 -> same_capture e1 e3.
Proof.
  unfold same_capture. intros [Ht [Hs [Hp Hr]]] [Ht' [Hs' [Hp' Hr']]].
  repeat split; congruence.
Qed.

Lemma same_capture_read_chunks (cs : list jsstring) (c : Collector) :
  same_capture (entry c) (entry (read_chunks c cs)).
Proof.
  assert (Hline : forall line c0,
             same_capture (entry c0) (entry (on_line c0 line))).
  { intros line c0. unfold on_line.
    destruct (startsWith _ line); [|apply same_capture_refl].
    destruct (JSON_parse _) as [data|]; [|apply same_capture_refl].
    now destruct (content_on_data data c0) as [_ [_ [_ [_ [H _]]]]]. }
  assert (Hlines : forall lines c0,
             same_capture (entry c0) (entry (fold_left on_line lines c0))).
  { induction lines as [|l lines IH]; intros c0; [apply same_capture_refl|].
    cbn [fold_left].
    exact (same_capture_trans _ _ _ (Hline l c0) (IH (on_line c0 l))). }
  revert c; induction cs as [|chunk cs IH]; intros c;
    [apply same_capture_refl|].
  cbn [read_chunks fold_left]. fold (read_chunks (on_chunk c chunk) cs).
  exact (same_capture_trans _ _ _ (Hlines (split_lines chunk) c)
           (IH (on_chunk c chunk))).
Qed.

Lemma same_capture_summarize (v : val) (e : RequestLogEntry) :
  same_capture e (fst (summarize v e)).
Proof.
  unfold summarize.
  destruct (get v (str "error")) as [err|]; [|apply same_capture_refl].
  destruct (truthy err); [now repeat split|].
  destruct (get_opt v (str "content")); try (now repeat split).
  destruct (textContent items) as [[|c t]|]; now repeat split.
Qed.

(** X14. Whatever the payload, the disk and the outcome, [onSend] on a
    request with an entry leaves on the request an entry with the same
    timestamp, session id, preset and request part, and the log file is
    either left as it is or extended by exactly that entry: earlier
    records are never rewritten. The same holds for [onError]. *)
Theorem hooks_only_append_the_captured_entry
    (now : Z) (req : FastifyRequest) (w : World) (e : RequestLogEntry)
    (p : payload) (err : val) :
  logEntry req = Some e ->
  (exists e',
      logEntry (run_request (onSend now req w p)) = Some e'
      /\ same_capture e e'
      /\ (logFile (run_world (onSend now req w p)) = logFile w
          \/ logFile (run_world (onSend now req w p)) = logFile w ++ [e']))
  /\ (exists e',
      logEntry (run_request (onError now req w err)) = Some e'
      /\ same_capture e e'
      /\ (logFile (run_world (onError now req w err)) = logFile w
          \/ logFile (run_world (onError now req w err)) = logFile w ++ [e'])).
Proof.
  intros He.
  set (e0 := set_duration_ms e (elapsed now req)).
  assert (H0 : same_capture e e0) by now repeat split.
  split.
  - unfold onSend. rewrite He. fold e0.
    destruct p as [s|v].
    + unfold tee, collect.
      pose proof (same_capture_read_chunks (chunks s) (start_collector e0))
        as Hread. cbn [start_collector entry] in Hread.
      destruct (ending_of s) as [|reason].
      * assert (Hfin : same_capture e
                         (finalize (read_chunks (start_collector e0) (chunks s)))).
        { apply (same_capture_trans _ _ _ H0).
          apply (same_capture_trans _ _ _ Hread). now repeat split. }
        unfold appendFile. destruct (appendFailure w); eexists;
          (split; [reflexivity|split; [exact Hfin|]]);
          [now left | now right].
      * eexists. split; [reflexivity|].
        split; [exact (same_capture_trans _ _ _ H0 Hread) | left].
        cbn [run_world]. unfold report_failure.
        destruct (get reason _) as [message|]; cbn [bind]; [|reflexivity].
        now destruct (toString message).
    + destruct (typeof_object v).
      * pose proof (same_capture_summarize v e0) as Hsum.
        destruct (summarize v e0) as [e1 [[]|]]; cbn [fst] in Hsum.
        -- unfold appendFile. destruct (appendFailure w); eexists;
             (split; [reflexivity|
                      split; [exact (same_capture_trans _ _ _ H0 Hsum)|]]);
             [now left | now right].
        -- eexists. split; [reflexivity|].
           split; [exact (same_capture_trans _ _ _ H0 Hsum) | now left].
      * eexists. split; [reflexivity|]. split; [exact H0 | now left].
  - unfold onError. rewrite He. fold e0.
    destruct (bind _ _) as [projection|].
    + unfold appendFile. destruct (appendFailure w); eexists;
        (split; [reflexivity|split; [|]]);
        [now repeat split | now left | now repeat split | now right].
    + eexists. split; [reflexivity|]. split; [exact H0 | now left].
Qed.

(** X15. A payload that is not an object (a string, as a serialized
    reply, a number, a boolean, [undefined]) is returned as it is and
    nothing is written, whether the request has an entry or not. *)
Theorem payload_that_is_no_object_is_not_logged
    (now : Z) (req : FastifyRequest) (w : World) (v : val) :
  typeof_object v = false ->
  run_world (onSend now req w (PValue v)) = w
  /\ run_result (onSend now req w (PValue v)) = Ok (PValue v).
Proof.
  intros Hobj. unfold onSend.
  destruct (logEntry req); [|now split].
  rewrite Hobj. now split.
Qed.

(** X16. Given an error object, [onError] on a request with an entry
    sets the error of the entry to the message, stack and code of the
    error object and keeps the response summary the entry had; given
    [undefined] or [null] it throws, having set the duration only, and
    writes nothing. *)
Theorem onError_projects_the_error
    (now : Z) (req : FastifyRequest) (w : World) (e : RequestLogEntry)
    (err : val) :
  logEntry req = Some e ->
  (err <> JUndefined -> err <> JNull ->
   exists e',
     logEntry (run_request (onError now req w err)) = Some e'
     /\ error e' = JObj [(str "message", get_opt err (str "message"));
                         (str "stack", get_opt err (str "stack"));
                         (str "code", get_opt err (str "code"))]
     /\ response e' = response e)
  /\ (err = JUndefined \/ err = JNull ->
      onError now req w err
      = {| run_request := set_logEntry req
                            (set_duration_ms e (elapsed now req));
           run_world := w;
           run_result := Throw |}).
Proof.
  intros He. split.
  - intros Hu Hn. unfold onError. rewrite He.
    rewrite !(get_of_object err _ Hu Hn). cbn [bind].
    destruct (appendFile w _); eexists; repeat split.
  - intros [-> | ->]; unfold onError; rewrite He; reflexivity.
Qed.

(** X17. While [appendFile] rejects, a stream that ends is still
    returned and the rejection only adds its message to the error log;
    a payload that is an object, and an error given to [onError], make
    the hook throw once the entry is filled; in no case is the log file
    touched. *)
Theorem append_failure_by_path
    (now : Z) (req : FastifyRequest) (w : World) (e : RequestLogEntry)
    (message : jsstring) :
  logEntry req = Some e ->
  appendFailure w = Some message ->
  (forall s,
      ending_of s = Closed ->
      run_result (onSend now req w (PStream s)) = Ok (PStream s)
      /\ run_world (onSend now req w (PStream s))
         = log_error w (collecting_error message))
  /\ (forall v,
      typeof_object v = true ->
      run_result (onSend now req w (PValue v)) = Throw
      /\ run_world (onSend now req w (PValue v)) = w)
  /\ (forall err,
      run_result (onError now req w err) = Throw
      /\ run_world (onError now req w err) = w).
Proof.
  intros He Hdisk. split; [|split].
  - intros s Hend. unfold onSend. rewrite He. unfold tee, collect.
    rewrite Hend. unfold appendFile. rewrite Hdisk. now split.
  - intros v Hobj. unfold onSend. rewrite He, Hobj.
    destruct (summarize v _) as [e1 [[]|]]; [|now split].
    unfold appendFile. rewrite Hdisk. now split.
  - intros err. unfold onError. rewrite He.
    destruct (bind _ _); [|now split].
    unfold appendFile. rewrite Hdisk. now split.
Qed.

(** X18. The hooks keep no mark of a record already written: when
    [onSend] has returned an object payload for a request with an entry
    (so that its record was appended) and [onError] then runs on the
    same request with an error object, a second record is appended,
    which carries the response summary of the first and the error. *)
Theorem error_after_reply_appends_a_second_record
    (now1 now2 : Z) (req : FastifyRequest) (w : World) (e : RequestLogEntry)
    (v err : val) :
  logEntry req = Some e ->
  typeof_object v = true ->
  run_result (onSend now1 req w (PValue v)) = Ok (PValue v) ->
  err <> JUndefined -> err <> JNull ->
  let run1 := onSend now1 req w (PValue v) in
  let run2 := onError now2 (run_request run1) (run_world run1) err in
  exists e1 e2,
    logFile (run_world run1) = logFile w ++ [e1]
    /\ logFile (run_world run2) = logFile w ++ [e1; e2]
    /\ response e2 = response e1
    /\ error e2 = JObj [(str "message", get_opt err (str "message"));
                        (str "stack", get_opt err (str "stack"));
                        (str "code", get_opt err (str "code"))].
Proof.
  intros He Hobj Hret Hu Hn. cbv zeta.
  unfold onSend in *. rewrite He, Hobj in *.
  destruct (summarize v _) as [e1 [[]|]]; [|discriminate Hret].
  unfold appendFile in *.
  destruct (appendFailure w) eqn:Hdisk; [discriminate Hret|].
  cbn [run_request run_world].
  unfold onError. cbn [logEntry set_logEntry].
  rewrite !(get_of_object err _ Hu Hn). cbn [bind].
  unfold appendFile. cbn [appendFailure logFile].
  eexists. eexists. cbn [run_world logFile].
  split; [reflexivity|]. split; [now rewrite <- app_assoc|].
  now split.
Qed.

(** X19. After [preHandler] returned at time [t0] on a captured request,
    the entry that [onSend] or [onError] leaves at time [t1] has the
    duration [t1 - t0], whatever the payload, the error and the outcome
    of the hook. *)
Theorem duration_is_the_time_since_capture
    (options : RequestLoggerOptions) (t0 t1 : Z) (iso : jsstring)
    (req req' : FastifyRequest) (w : World) (p : payload) (err : val) :
  targets_endpoint req = true ->
  preHandler options t0 iso req = (req', Ok tt) ->
  (exists e',
      logEntry (run_request (onSend t1 req' w p)) = Some e'
      /\ duration_ms e' = Some (Millis (t1 - t0)))
  /\ (exists e',
      logEntry (run_request (onError t1 req' w err)) = Some e'
      /\ duration_ms e' = Some (Millis (t1 - t0))).
Proof.
  intros Hpath Hrun.
  destruct (preHandler_returned options t0 iso req req' Hpath Hrun)
    as [e [_ ->]].
  set (r := set_logEntry (set_requestStartTime req t0) e).
  assert (Hel : elapsed t1 r = Millis (t1 - t0)) by reflexivity.
  split.
  - unfold onSend. change (logEntry r) with (Some e). rewrite Hel.
    set (e0 := set_duration_ms e (Millis (t1 - t0))).
    destruct p as [s|v].
    + unfold tee, collect.
      pose proof (duration_read_chunks (chunks s) (start_collector e0)) as Hd.
      destruct (ending_of s).
      * destruct (appendFile w _); eexists; (split; [reflexivity|]);
          exact Hd.
      * eexists. split; [reflexivity|exact Hd].
    + destruct (typeof_object v).
      * pose proof (duration_summarize v e0) as Hd.
        destruct (summarize v e0) as [e1 [[]|]]; cbn [fst] in Hd.
        -- destruct (appendFile w e1); eexists; (split; [reflexivity|]);
             exact Hd.
        -- eexists. split; [reflexivity|exact Hd].
      * eexists. split; reflexivity.
  - unfold onError. change (logEntry r) with (Some e). rewrite Hel.
    destruct (bind _ _).
    + destruct (appendFile w _); eexists; split; reflexivity.
    + eexists. split; reflexivity.
Qed.

Lemma filter_result_throws {A} (f : A -> result bool) (xs : list A) (x : A) :
  In x xs -> f x = Throw -> filter_result f xs = Throw.
Proof.
  induction xs as [|y xs IH]; intros Hin Hx; [destruct Hin|].
  cbn [filter_result]. destruct Hin as [-> | Hin].
  - now rewrite Hx.
  - rewrite (IH Hin Hx). now destruct (f y).
Qed.

(** X20. A payload without truthy [error] whose [content] is an array
    that holds [null] or [undefined] makes [onSend] throw on a request
    with an entry: the summary fields are already copied to the entry,
    but nothing is written and the payload is not returned. *)
Theorem null_block_makes_onSend_throw
    (now : Z) (req : FastifyRequest) (w : World) (e : RequestLogEntry)
    (v err : val) (items : list val) :
  logEntry req = Some e ->
  get v (str "error") = Ok err ->
  truthy err = false ->
  get v (str "content") = Ok (JArr items) ->
  In JNull items \/ In JUndefined items ->
  run_result (onSend now req w (PValue v)) = Throw
  /\ run_world (onSend now req w (PValue v)) = w
  /\ exists e',
       logEntry (run_request (onSend now req w (PValue v))) = Some e'
       /\ response_id (response e') = get_opt v (str "id")
       /\ response_content (response e') = JArr items.
Proof.
  intros He Herr Hf Hcontent Hhole.
  assert (Hobj : typeof_object v = true).
  { destruct v; try reflexivity; cbn in Hcontent; discriminate. }
  assert (Hthrow : textContent items = Throw).
  { unfold textContent.
    destruct Hhole as [Hin | Hin];
      rewrite (filter_result_throws _ items _ Hin eq_refl); reflexivity. }
  unfold onSend. rewrite He, Hobj. unfold summarize.
  rewrite Herr, Hf, (get_opt_get _ _ _ Hcontent), Hthrow.
  cbn [run_result run_world run_request logEntry set_logEntry].
  split; [reflexivity|]. split; [reflexivity|].
  eexists. split; [reflexivity|]. now split.
Qed.

End FinishProperties.

(* ================================================================= *)
(** ** When the hooks cannot throw, and what they ignore *)

Section TotalityProperties.
Context {NUM : Numbers} {RT : Runtime}.

Lemma sanitize_item_block (options : RequestLoggerOptions) (item : val) :
  is_block item = true -> exists logged, sanitize_item options item = Ok logged.
Proof.
  destruct item; try discriminate. unfold is_block, sanitize_item.
  unfold get_opt, get.
  destruct (own (str "type") fields) as [ty|]; cbn [bind].
  - destruct (is_str ty (str "text")) eqn:Hty.
    + destruct (own (str "text") fields) as [[]|]; try discriminate;
        intros _; cbn [bind truthy andb];
        rewrite ?(is_str_other _ _ (str "image") Hty eq_refl),
          ?(is_str_other _ _ (str "tool_use") Hty eq_refl),
          ?(is_str_other _ _ (str "tool_result") Hty eq_refl); eauto.
      destruct s as [|c s]; cbn [truthy andb].
      * rewrite ?(is_str_other _ _ (str "image") Hty eq_refl),
          ?(is_str_other _ _ (str "tool_use") Hty eq_refl),
          ?(is_str_other _ _ (str "tool_result") Hty eq_refl); eauto.
      * unfold truncate_any.
        destruct (0 <? maxMessageLength options); cbn [bind]; eauto.
    + intros _. cbn [andb].
      destruct (own (str "text") fields); cbn [bind];
        destruct (is_str ty (str "image")); eauto;
        destruct (is_str ty (str "tool_use")); cbn [bind];
        try (destruct (own (str "name") fields); cbn [bind];
             destruct (own (str "id") fields); cbn [bind]; eauto);
        destruct (is_str ty (str "tool_result")); cbn [bind]; eauto;
        destruct (own (str "tool_use_id") fields); cbn [bind]; eauto.
  - intros _. cbn [is_str andb].
    destruct (own (str "text") fields); cbn [bind]; eauto.
Qed.

Lemma map_result_returns {A B} (f : A -> result B) (xs : list A) :
  Forall (fun x => exists y, f x = Ok y) xs ->
  exists ys, map_result f xs = Ok ys.
Proof.
  induction 1 as [|x xs [y Hx] _ [ys IH]]; [now exists []|].
  exists (y :: ys). cbn [map_result]. now rewrite Hx, IH.
Qed.

Lemma sanitize_message_chat (options : RequestLoggerOptions) (msg : val) :
  is_chat_message msg = true ->
  exists logged, sanitize_message options msg = Ok logged.
Proof.
  destruct msg; try discriminate. unfold is_chat_message, sanitize_message.
  unfold get.
  destruct (own (str "role") fields) as [role|]; cbn [bind];
    (destruct (own (str "content") fields) as [content|]; cbn [bind];
     [|eauto]);
    (destruct content; eauto; intros Hblocks;
     destruct (map_result_returns (sanitize_item options) items) as [ys Hys];
     [apply Forall_forall; intros item Hin;
      apply sanitize_item_block;
      rewrite forallb_forall in Hblocks; now apply Hblocks
     | rewrite Hys; cbn [bind]; eauto]).
Qed.

(** X21. With the tools not logged, [preHandler] returns on every
    captured request whose [messages] are absent or an array of chat
    messages (plain objects whose content, when an array, holds
    blocks): logging does not make a well-formed request fail, and the
    request then has an entry. *)
Theorem chat_requests_are_captured
    (options : RequestLoggerOptions) (now : Z) (iso : jsstring)
    (req : FastifyRequest) (msgs : list val) :
  targets_endpoint req = true ->
  includeTools options = false ->
  get_opt (body req) (str "messages") = JUndefined
  \/ get_opt (body req) (str "messages") = JArr msgs ->
  forallb is_chat_message msgs = true ->
  snd (preHandler options now iso req) = Ok tt
  /\ exists e, logEntry (fst (preHandler options now iso req)) = Some e.
Proof.
  intros Hpath Htools Hmsgs Hchat.
  assert (Hsan : exists out,
             sanitizeMessages options
               (or_else (get_opt (body req) (str "messages")) (JArr [])) = Ok out).
  { unfold sanitizeMessages, or_else.
    destruct (includeMessages options); cbn [negb]; [|eauto].
    destruct Hmsgs as [-> | ->]; cbn [truthy negb]; [now exists []|].
    apply map_result_returns. apply Forall_forall. intros msg Hin.
    apply sanitize_message_chat.
    rewrite forallb_forall in Hchat. now apply Hchat. }
  destruct Hsan as [out Hout].
  unfold preHandler. rewrite Hpath. unfold new_logEntry.
  rewrite Hout. cbn [bind]. unfold logged_tools. rewrite Htools.
  cbn [andb bind fst snd]. split; [reflexivity|]. eexists. reflexivity.
Qed.

(** X22. With messages and tools not logged, [preHandler] returns on
    every captured request, whatever its body, with an entry that has no
    message and no tool. *)
Theorem bare_options_never_throw
    (options : RequestLoggerOptions) (now : Z) (iso : jsstring)
    (req : FastifyRequest) :
  targets_endpoint req = true ->
  includeMessages options = false ->
  includeTools options = false ->
  snd (preHandler options now iso req) = Ok tt
  /\ exists e,
       logEntry (fst (preHandler options now iso req)) = Some e
       /\ request_messages (request e) = []
       /\ request_tools (request e) = JUndefined.
Proof.
  intros Hpath Hmsgs Htools.
  unfold preHandler. rewrite Hpath.
  unfold new_logEntry, sanitizeMessages, logged_tools.
  rewrite Hmsgs, Htools. cbn [negb andb bind fst snd].
  split; [reflexivity|]. eexists. repeat split.
Qed.

(** X23. An event the collector does not know (a ping, an event of
    another type or without type, a primitive, [null]) leaves the
    collector, and the entry it shares with the hooks, as they were. *)
Theorem unknown_events_are_ignored (data : val) (c : Collector) :
  is_known_event data = false -> on_data data c = c.
Proof.
  unfold is_known_event, on_data. cbv zeta.
  destruct (get data (str "type")) as [ty|] eqn:Hty; [|reflexivity].
  rewrite (get_opt_get _ _ _ Hty).
  intros H. apply orb_false_iff in H as [H Hd].
  apply orb_false_iff in H as [H Hs]. apply orb_false_iff in H as [Hm Ht].
  unfold capture_message_start, capture_text, capture_tool_use,
    capture_message_delta.
  rewrite Hm, Ht. cbn [andb]. rewrite Hs. cbn [andb]. now rewrite Hd.
Qed.

End TotalityProperties.

(* ================================================================= *)
(** ** The further properties on the inputs of [Demo] *)

Section FurtherRuns.
#[local] Existing Instance Ref.numbers.
#[local] Existing Instance Ref.runtime.

Lemma truncated_text_length_run :
  0 < 10
  /\ 10 < length (str "hello world")
  /\ length (truncate (str "hello world") 10) = 39
  /\ length (str "hello world") < length (truncate (str "hello world") 10).
Proof.
  split; [lia|]. split; [cbn; lia|].
  destruct (truncated_text_length (str "hello world") 10) as [Hlen [_ Hlonger]];
    [lia | cbn; lia |].
  split; [exact Hlen | apply Hlonger; cbn; lia].
Defined.

Lemma blocks_are_logged_by_kind_run :
  sanitize_message Demo.full_options Demo.mixed_message = Ok Demo.mixed_logged
  /\ get Demo.mixed_message (str "content") = Ok (JArr Demo.mixed_blocks)
  /\ exists logged,
       Demo.mixed_logged = JObj [(str "role", JStr (str "user"));
                                 (str "content", JArr logged)]
       /\ length logged = 5.
Proof.
  split; [reflexivity|]. split; [reflexivity|].
  destruct (blocks_are_logged_by_kind (NUM := Ref.numbers)
              Demo.full_options Demo.mixed_message
              Demo.mixed_logged Demo.mixed_blocks eq_refl eq_refl)
    as [role [logged [Hrole [Hout Hall]]]].
  exists logged. split.
  - rewrite Hout. injection Hrole as <-. reflexivity.
  - exact (eq_trans (eq_sym (Forall2_length Hall)) eq_refl).
Defined.

Lemma messages_keep_count_and_roles_run :
  includeMessages Demo.full_options = true
  /\ (exists out,
        sanitizeMessages (NUM := Ref.numbers) Demo.full_options
          (JArr Demo.rich_messages) = Ok out
        /\ length out = 2).
Proof.
  split; [reflexivity|].
  destruct (sanitizeMessages (NUM := Ref.numbers) Demo.full_options
          (JArr Demo.rich_messages))
    as [out|] eqn:Hout; [|vm_compute in Hout; discriminate Hout].
  exists out. split; [reflexivity|].
  destruct (messages_keep_count_and_roles (NUM := Ref.numbers)
              Demo.full_options
              Demo.rich_messages out eq_refl Hout) as [Hlen _].
  rewrite Hlen. reflexivity.
Defined.

Lemma preHandler_of_rich :
  preHandler Demo.full_options 1000 (str "2026-01-01T00:00:00.000Z") Demo.rich
  = (Demo.rich_captured, Ok tt).
Proof. reflexivity. Qed.

Lemma captured_entry_starts_blank_run :
  targets_endpoint Demo.rich = true
  /\ exists e,
       logEntry Demo.rich_captured = Some e
       /\ sessionId e = JStr (str "unknown")
       /\ response e = empty_response.
Proof.
  split; [reflexivity|].
  destruct (captured_entry_starts_blank (NUM := Ref.numbers) Demo.full_options 1000
              (str "2026-01-01T00:00:00.000Z") Demo.rich Demo.rich_captured
              eq_refl preHandler_of_rich)
    as [_ [e [He [_ [Hs [_ [Hr _]]]]]]].
  exists e. split; [exact He|]. split; [exact Hs | exact Hr].
Defined.

Lemma system_prompt_run :
  targets_endpoint Demo.rich = true
  /\ get_opt (body Demo.rich) (str "system") = JStr (str "You are helpful")
  /\ exists e,
       logEntry Demo.rich_captured = Some e
       /\ request_system (request e)
          = JStr (str "You are ... [truncated, 7 more chars]").
Proof.
  split; [reflexivity|]. split; [reflexivity|].
  exact (system_prompt_is_cut_at_twice_the_bound (NUM := Ref.numbers)
      Demo.full_options 1000
           (str "2026-01-01T00:00:00.000Z") Demo.rich Demo.rich_captured
           (str "You are helpful") eq_refl preHandler_of_rich eq_refl).
Defined.

Lemma tools_run :
  targets_endpoint Demo.rich = true
  /\ get_opt (body Demo.rich) (str "tools") = JArr Demo.rich_tools
  /\ exists e,
       logEntry Demo.rich_captured = Some e
       /\ request_tools (request e)
          = Demo.parsed "[{'name':'search','description':'Web search'}]".
Proof.
  split; [reflexivity|]. split; [reflexivity|].
  exact (tools_are_logged_as_descriptors (NUM := Ref.numbers) Demo.full_options 1000
           (str "2026-01-01T00:00:00.000Z") Demo.rich Demo.rich_captured
           Demo.rich_tools eq_refl preHandler_of_rich eq_refl).
Defined.

Lemma malformed_messages_run :
  targets_endpoint Demo.malformed = true
  /\ logEntry Demo.malformed = None
  /\ get_opt (body Demo.malformed) (str "messages") = JStr (str "hello")
  /\ snd (preHandler default_options 1000 (str "2026-01-01T00:00:00.000Z")
            Demo.malformed) = Throw
  /\ logFile (run_world
                (onError 1500
                   (fst (preHandler default_options 1000
                           (str "2026-01-01T00:00:00.000Z") Demo.malformed))
                   Demo.disk Demo.upstream_error)) = [].
Proof.
  split; [reflexivity|]. split; [reflexivity|]. split; [reflexivity|].
  assert (Hshape : forall msgs,
             get_opt (body Demo.malformed) (str "messages") <> JArr msgs).
  { intros msgs H. vm_compute in H. discriminate H. }
  destruct (malformed_messages_leave_no_entry (NUM := Ref.numbers) default_options 1000
              (str "2026-01-01T00:00:00.000Z") Demo.malformed
              eq_refl eq_refl eq_refl eq_refl Hshape)
    as [Hthrow [_ [_ Hlater]]].
  split; [exact Hthrow|].
  destruct (Hlater 1500%Z Demo.disk (@PValue Ref.numbers JNull) Demo.upstream_error)
    as [_ Herr].
  now rewrite Herr.
Defined.

Lemma tool_uses_run :
  response_content (response Demo.entry) = JUndefined
  /\ response_content
       (response
          (finalize
             (fold_left (fun c data => on_data data c)
                [Demo.text_start; Demo.tool_start; Demo.ping]
                (start_collector Demo.entry))))
     = Demo.parsed "[{'type':'tool_use','name':'search','id':'t1'}]".
Proof.
  split; [reflexivity|].
  exact (tool_uses_are_collected_in_order (NUM := Ref.numbers) Demo.entry
           [Demo.text_start; Demo.tool_start; Demo.ping] eq_refl).
Defined.

Lemma frameless_stream_run :
  (forall chunk line,
      In chunk (chunks Demo.frameless_stream) ->
      In line (split_lines chunk) -> no_frame line = true)
  /\ ending_of Demo.frameless_stream = Closed
  /\ response Demo.entry = empty_response
  /\ response_fullText
       (response (fst (collect Demo.entry Demo.frameless_stream Demo.disk)))
     = Some [].
Proof.
  assert (H : forall chunk line,
             In chunk (chunks Demo.frameless_stream) ->
             In line (split_lines chunk) -> no_frame line = true).
  { intros chunk line [<- | [<- | []]] Hline; vm_compute in Hline;
      repeat (destruct Hline as [<- | Hline]; [reflexivity|]);
      destruct Hline. }
  split; [exact H|]. split; [reflexivity|]. split; [reflexivity|].
  destruct (frameless_stream_gives_empty_text (NUM := Ref.numbers)
      Demo.entry Demo.frameless_stream
              Demo.disk (start_collector Demo.entry) H) as [_ Hrecord].
  now rewrite (Hrecord eq_refl eq_refl).
Defined.

Lemma hooks_only_append_run :
  logEntry Demo.captured = Some Demo.entry
  /\ exists e',
       logEntry (run_request (onSend 1500 Demo.captured Demo.disk
                                (@PValue Ref.numbers Demo.message_payload))) = Some e'
       /\ request e' = request Demo.entry.
Proof.
  split; [reflexivity|].
  destruct (hooks_only_append_the_captured_entry (NUM := Ref.numbers) 1500
              Demo.captured Demo.disk
              Demo.entry (@PValue Ref.numbers Demo.message_payload) JNull eq_refl)
    as [[e' [He' [[_ [_ [_ Hreq]]] _]]] _].
  exists e'. split; [exact He' | exact Hreq].
Defined.

Lemma string_payload_run :
  typeof_object (JStr (str "{}")) = false
  /\ logFile (run_world (onSend 1500 Demo.captured Demo.disk
                           (@PValue Ref.numbers (JStr (str "{}"))))) = [].
Proof.
  split; [reflexivity|].
  destruct (payload_that_is_no_object_is_not_logged (NUM := Ref.numbers)
      1500 Demo.captured
              Demo.disk (JStr (str "{}")) eq_refl) as [Hw _].
  now rewrite Hw.
Defined.

Lemma onError_run :
  logEntry Demo.captured = Some Demo.entry
  /\ exists e',
       logEntry (run_request (onError 1500 Demo.captured Demo.disk
                                Demo.upstream_error)) = Some e'
       /\ error e' = Demo.upstream_error.
Proof.
  split; [reflexivity|].
  destruct (onError_projects_the_error (NUM := Ref.numbers)
      1500 Demo.captured Demo.disk Demo.entry
              Demo.upstream_error eq_refl) as [Hobj _].
  destruct Hobj as [e' [He' [Herr _]]];
    [vm_compute; discriminate | vm_compute; discriminate |].
  exists e'. split; [exact He' | exact Herr].
Defined.

Lemma append_failure_run :
  logEntry Demo.captured = Some Demo.entry
  /\ appendFailure Demo.full_disk
     = Some (str "ENOSPC: no space left on device")
  /\ errorLog (run_world (onSend 1500 Demo.captured Demo.full_disk
                            (PStream Demo.example_stream)))
     = [str "Error collecting streaming response: ENOSPC: no space left on device"]
  /\ run_result (onSend 1500 Demo.captured Demo.full_disk
                   (@PValue Ref.numbers Demo.message_payload)) = Throw.
Proof.
  split; [reflexivity|]. split; [reflexivity|].
  destruct (append_failure_by_path (NUM := Ref.numbers)
      1500 Demo.captured Demo.full_disk Demo.entry
              (str "ENOSPC: no space left on device") eq_refl eq_refl)
    as [Hstream [Hdirect _]].
  split.
  - destruct (Hstream Demo.example_stream eq_refl) as [_ Hw]. now rewrite Hw.
  - now destruct (Hdirect Demo.message_payload eq_refl).
Defined.

Lemma second_record_run :
  logEntry Demo.captured = Some Demo.entry
  /\ typeof_object Demo.message_payload = true
  /\ run_result (onSend 1500 Demo.captured Demo.disk
                   (@PValue Ref.numbers Demo.message_payload))
     = Ok (@PValue Ref.numbers Demo.message_payload)
  /\ length
       (logFile
          (run_world
             (onError 1600
                (run_request (onSend 1500 Demo.captured Demo.disk
                                (@PValue Ref.numbers Demo.message_payload)))
                (run_world (onSend 1500 Demo.captured Demo.disk
                              (@PValue Ref.numbers Demo.message_payload)))
                Demo.upstream_error))) = 2.
Proof.
  split; [reflexivity|]. split; [reflexivity|]. split; [reflexivity|].
  destruct (error_after_reply_appends_a_second_record (NUM := Ref.numbers)
      1500 1600 Demo.captured
              Demo.disk Demo.entry Demo.message_payload Demo.upstream_error
              eq_refl eq_refl eq_refl)
    as [e1 [e2 [_ [Hlog _]]]];
    [vm_compute; discriminate | vm_compute; discriminate |].
  now rewrite Hlog.
Defined.

Lemma duration_run :
  targets_endpoint Demo.incoming = true
  /\ preHandler default_options 1000 (str "2026-01-01T00:00:00.000Z")
       Demo.incoming = (Demo.captured, Ok tt)
  /\ exists e',
       logEntry (run_request (onSend 1500 Demo.captured Demo.disk
                                (PStream Demo.broken_stream))) = Some e'
       /\ duration_ms e' = Some (Millis 500).
Proof.
  split; [reflexivity|]. split; [reflexivity|].
  exact (proj1 (duration_is_the_time_since_capture (NUM := Ref.numbers)
      default_options 1000 1500
                  (str "2026-01-01T00:00:00.000Z") Demo.incoming Demo.captured
                  Demo.disk (PStream Demo.broken_stream) JNull
                  eq_refl eq_refl)).
Defined.

Lemma null_block_run :
  logEntry Demo.captured = Some Demo.entry
  /\ get Demo.holed_payload (str "error") = Ok JUndefined
  /\ get Demo.holed_payload (str "content")
     = Ok (JArr (Demo.list_of (get_opt Demo.holed_payload (str "content"))))
  /\ In JNull (Demo.list_of (get_opt Demo.holed_payload (str "content")))
  /\ run_result (onSend 1500 Demo.captured Demo.disk
                   (@PValue Ref.numbers Demo.holed_payload)) = Throw.
Proof.
  split; [reflexivity|]. split; [reflexivity|]. split; [reflexivity|].
  assert (Hin : In JNull
                  (Demo.list_of (get_opt Demo.holed_payload (str "content")))).
  { vm_compute. right. now left. }
  split; [exact Hin|].
  exact (proj1 (null_block_makes_onSend_throw (NUM := Ref.numbers)
      1500 Demo.captured Demo.disk
                  Demo.entry Demo.holed_payload JUndefined
                  (Demo.list_of (get_opt Demo.holed_payload (str "content")))
                  eq_refl eq_refl eq_refl eq_refl (or_introl Hin))).
Defined.

Lemma chat_requests_run :
  targets_endpoint Demo.rich = true
  /\ includeTools default_options = false
  /\ get_opt (body Demo.rich) (str "messages") = JArr Demo.rich_messages
  /\ forallb is_chat_message Demo.rich_messages = true
  /\ snd (preHandler default_options 1000 (str "2026-01-01T00:00:00.000Z")
            Demo.rich) = Ok tt.
Proof.
  split; [reflexivity|]. split; [reflexivity|]. split; [reflexivity|].
  split; [reflexivity|].
  exact (proj1 (chat_requests_are_captured (NUM := Ref.numbers)
                  default_options 1000 (str "2026-01-01T00:00:00.000Z")
                  Demo.rich Demo.rich_messages eq_refl eq_refl
                  (or_intror eq_refl) eq_refl)).
Defined.

Lemma bare_options_run :
  let bare := {| includeSystemPrompt := true; includeMessages := false;
                 includeTools := false; maxMessageLength := 0 |} in
  targets_endpoint Demo.malformed = true
  /\ includeMessages bare = false
  /\ includeTools bare = false
  /\ snd (preHandler bare 1000 (str "2026-01-01T00:00:00.000Z") Demo.malformed)
     = Ok tt.
Proof.
  cbv zeta.
  split; [reflexivity|]. split; [reflexivity|]. split; [reflexivity|].
  exact (proj1 (bare_options_never_throw (NUM := Ref.numbers)
                  {| includeSystemPrompt := true; includeMessages := false;
                     includeTools := false; maxMessageLength := 0 |}
                  1000 (str "2026-01-01T00:00:00.000Z") Demo.malformed
                  eq_refl eq_refl eq_refl)).
Defined.

Lemma unknown_events_run :
  is_known_event Demo.ping = false
  /\ is_known_event (@JNull Ref.num) = false
  /\ on_data Demo.ping (start_collector Demo.entry) = start_collector Demo.entry.
Proof.
  split; [reflexivity|]. split; [reflexivity|].
  exact (unknown_events_are_ignored (NUM := Ref.numbers) Demo.ping
           (start_collector Demo.entry) eq_refl).
Defined.

End FurtherRuns.
